(** * CH32V003 IR remote control: the four protocol encoders of [main.c]

    A shallow embedding of [software/ir_remote/src/main.c] and [config.h].
    The hardware primitives of [system.h] and [gpio.h] ([IR_on], [IR_off],
    [DLY_us], [DLY_ms], the timer registers written by [PWM_set], the key
    pins read by [KEY_read]) are observable events: an encoder is a
    computation over a machine state that appends the events it performs to
    a trace.  The pin levels are an input: [pins n] is what the five key
    pins show at the [n]-th call of [KEY_read]. *)

From Stdlib Require Import ZArith List Lia Bool.
Import ListNotations.
Local Open Scope Z_scope.

(** ** Machine integers *)

(** Conversion to [uint8_t] and [uint16_t]. *)
Definition u8 (x : Z) : Z := x mod 256.
Definition u16 (x : Z) : Z := x mod 65536.

(** ** Events, pins and the machine state *)

Inductive Event : Type :=
| EvPWM (atrlr ch2cvr : Z)   (* TIM1->ATRLR, TIM1->CH2CVR, then TIM_UG *)
| EvOn                       (* IR_on():  LED pin outputs the PWM carrier *)
| EvOff                      (* IR_off(): LED pin outputs no carrier *)
| EvDlyUs (us : Z)           (* DLY_us(us) *)
| EvDlyMs (ms : Z)           (* DLY_ms(ms) *)
| EvKey (k : Z)              (* one call of KEY_read() and its result *)
| EvStandby.                 (* STDBY_WFE_now() *)

(** The key pins, in the order [KEY_read] tests them. *)
Inductive Key : Type := PIN_KEY1 | PIN_KEY2 | PIN_KEY3 | PIN_KEY4 | PIN_KEY5.

(** Level of every key pin ([true] is high); the keys are active low. *)
Definition Pins : Type := Key -> bool.

Definition PIN_read (p : Pins) (k : Key) : bool := p k.

(** The body of [KEY_read] on one sample of the pins. *)
Definition KEY_scan (p : Pins) : Z :=
  if negb (PIN_read p PIN_KEY1) then 1 else
  if negb (PIN_read p PIN_KEY2) then 2 else
  if negb (PIN_read p PIN_KEY3) then 3 else
  if negb (PIN_read p PIN_KEY4) then 4 else
  if negb (PIN_read p PIN_KEY5) then 5 else
  0.

Record Machine : Type := mkMachine {
  RC5_toggle : Z;          (* uint8_t RC5_toggle *)
  polls : nat;             (* calls of KEY_read so far *)
  trace : list Event       (* everything done so far, oldest first *)
}.

(** State at reset: [RC5_toggle = 0], nothing read, nothing emitted. *)
Definition reset : Machine := mkMachine 0 0 [].

(** [log w s]: the state [s] after performing the events [w]. *)
Definition log (w : list Event) (s : Machine) : Machine :=
  mkMachine (RC5_toggle s) (polls s) (trace s ++ w).

(** ** The monad of the embedding: state, and [None] when a loop is cut *)

Definition M (A : Type) : Type := Machine -> option (A * Machine).

Definition ret {A} (a : A) : M A := fun s => Some (a, s).

Definition bind {A B} (m : M A) (f : A -> M B) : M B :=
  fun s => match m s with
           | Some (a, s') => f a s'
           | None => None
           end.

Definition out_of_fuel {A} : M A := fun _ => None.

Notation "x <- m ;; k" := (bind m (fun x => k))
  (at level 61, m at next level, right associativity).
Notation "m ;; k" := (bind m (fun _ => k))
  (at level 61, right associativity).

Definition emit (e : Event) : M unit := fun s => Some (tt, log [e] s).

Definition when (c : bool) (m : M unit) : M unit := if c then m else ret tt.

(** ** Hardware primitives *)

Definition IR_on : M unit := emit EvOn.
Definition IR_off : M unit := emit EvOff.
Definition DLY_us (n : Z) : M unit := emit (EvDlyUs n).
Definition DLY_ms (n : Z) : M unit := emit (EvDlyMs n).
Definition STDBY_WFE_now : M unit := emit EvStandby.

(** [-D F_CPU=1500000] of the build configuration. *)
Definition F_CPU : Z := 1500000.

Definition PWM_set (freq : Z) : M unit :=
  emit (EvPWM (F_CPU / freq - 1) (F_CPU / freq / 4 + 1)).

Section Encoders.

(** Pin levels seen by the successive calls of [KEY_read]. *)
Variable pins : nat -> Pins.

Definition KEY_read : M Z := fun s =>
  let k := KEY_scan (pins (polls s)) in
  Some (k, mkMachine (RC5_toggle s) (S (polls s)) (trace s ++ [EvKey k])).

(** [while(cond) body;] and [do body while(cond);] with a bound on the
    number of evaluations of [cond]. *)
Fixpoint while_loop (fuel : nat) (cond : M Z) (body : M unit) : M unit :=
  match fuel with
  | O => out_of_fuel
  | S fuel' =>
      c <- cond ;;
      if c =? 0 then ret tt else body ;; while_loop fuel' cond body
  end.

Fixpoint do_while (fuel : nat) (body : M unit) (cond : M Z) : M unit :=
  match fuel with
  | O => out_of_fuel
  | S fuel' =>
      body ;;
      c <- cond ;;
      if c =? 0 then ret tt else do_while fuel' body cond
  end.

(** ** NEC *)

Definition NEC_FREQ : Z := 38000.

Definition NEC_startPulse : M unit := IR_on ;; DLY_us 9000 ;; IR_off ;; DLY_us 4500.
Definition NEC_repeatPulse : M unit := IR_on ;; DLY_us 9000 ;; IR_off ;; DLY_us 2250.
Definition NEC_normalPulse : M unit := IR_on ;; DLY_us 552 ;; IR_off ;; DLY_us 543.
Definition NEC_bit1Pause : M unit := DLY_us 1125.
Definition NEC_repeatCode : M unit :=
  DLY_ms 40 ;; NEC_repeatPulse ;; NEC_normalPulse ;; DLY_ms 56.

(** [for(uint8_t i=8; i; i--, value>>=1)], entered with [i] and [value]. *)
Fixpoint NEC_sendByte_loop (fuel : nat) (i value : Z) : M unit :=
  if i =? 0 then ret tt else
  match fuel with
  | O => out_of_fuel
  | S fuel' =>
      NEC_normalPulse ;;
      when (negb (Z.land value 1 =? 0)) NEC_bit1Pause ;;
      NEC_sendByte_loop fuel' (u8 (i - 1)) (u8 (Z.shiftr value 1))
  end.

Definition NEC_sendByte (value : Z) : M unit :=
  NEC_sendByte_loop 8 8 (u8 value).

Definition NEC_sendCode (fuel : nat) (addr cmd : Z) : M unit :=
  PWM_set NEC_FREQ ;;
  NEC_startPulse ;;
  (if 0xff <? addr
   then NEC_sendByte addr ;; NEC_sendByte (Z.shiftr addr 8)
   else NEC_sendByte addr ;; NEC_sendByte (Z.lnot addr)) ;;
  NEC_sendByte cmd ;;
  NEC_sendByte (Z.lnot cmd) ;;
  NEC_normalPulse ;;
  while_loop fuel KEY_read NEC_repeatCode.

(** ** SAMSUNG *)

Definition SAM_startPulse : M unit := IR_on ;; DLY_us 4500 ;; IR_off ;; DLY_us 4500.
Definition SAM_repeatPause : M unit := DLY_ms 44.

Definition SAM_sendCode (fuel : nat) (addr cmd : Z) : M unit :=
  PWM_set NEC_FREQ ;;
  do_while fuel
    (SAM_startPulse ;;
     NEC_sendByte addr ;;
     NEC_sendByte addr ;;
     NEC_sendByte cmd ;;
     NEC_sendByte (Z.lnot cmd) ;;
     NEC_normalPulse ;;
     SAM_repeatPause)
    KEY_read.

(** ** RC-5 *)

Definition RC5_FREQ : Z := 36000.

Definition RC5_bit0Pulse : M unit := IR_on ;; DLY_us 880 ;; IR_off ;; DLY_us 871.
Definition RC5_bit1Pulse : M unit := IR_off ;; DLY_us 880 ;; IR_on ;; DLY_us 871.
Definition RC5_repeatPause : M unit := DLY_ms 89.

Definition RC5_startBit : Z := 0x2000.
Definition RC5_cmdBit7 : Z := 0x1000.
Definition RC5_toggleBit : Z := 0x0800.

(** The message assembled by [RC5_sendCode] from its arguments and the
    value of [RC5_toggle]. *)
Definition RC5_message (addr cmd toggle : Z) : Z :=
  let message := u16 (Z.shiftl addr 6) in
  let message := Z.lor message (Z.land cmd 0x3f) in
  let message :=
    if negb (Z.land (Z.lnot cmd) 0x40 =? 0) then Z.lor message RC5_cmdBit7
    else message in
  let message := Z.lor message RC5_startBit in
  let message :=
    if negb (toggle =? 0) then Z.lor message RC5_toggleBit else message in
  message.

(** [for(uint8_t i=14; i; i--, bitmask>>=1)], entered with [i], [bitmask]. *)
Fixpoint RC5_send_loop (fuel : nat) (message i bitmask : Z) : M unit :=
  if i =? 0 then ret tt else
  match fuel with
  | O => out_of_fuel
  | S fuel' =>
      (if negb (Z.land message bitmask =? 0) then RC5_bit1Pulse
       else RC5_bit0Pulse) ;;
      RC5_send_loop fuel' message (u8 (i - 1)) (u16 (Z.shiftr bitmask 1))
  end.

Definition get_RC5_toggle : M Z := fun s => Some (RC5_toggle s, s).

Definition set_RC5_toggle (v : Z) : M unit := fun s =>
  Some (tt, mkMachine v (polls s) (trace s)).

Definition RC5_sendCode (fuel : nat) (addr cmd : Z) : M unit :=
  PWM_set RC5_FREQ ;;
  toggle <- get_RC5_toggle ;;
  let message := RC5_message addr cmd toggle in
  do_while fuel
    (RC5_send_loop 14 message 14 RC5_startBit ;;
     IR_off ;;
     RC5_repeatPause)
    KEY_read ;;
  toggle <- get_RC5_toggle ;;
  set_RC5_toggle (u8 (Z.lxor toggle 1)).

(** ** SONY SIRC *)

Definition SON_FREQ : Z := 40000.

Definition SON_startPulse : M unit := IR_on ;; DLY_us 2400 ;; IR_off ;; DLY_us 579.
Definition SON_bit0Pulse : M unit := IR_on ;; DLY_us 587 ;; IR_off ;; DLY_us 579.
Definition SON_bit1Pulse : M unit := IR_on ;; DLY_us 1192 ;; IR_off ;; DLY_us 579.
Definition SON_repeatPause : M unit := DLY_ms 27.

(** [do { ... } while(--number);] on [uint8_t] operands: the counter is
    decremented, wrapping below zero, and then tested. *)
Fixpoint SON_sendByte_loop (fuel : nat) (value number : Z) : M unit :=
  match fuel with
  | O => out_of_fuel
  | S fuel' =>
      (if negb (Z.land value 1 =? 0) then SON_bit1Pulse else SON_bit0Pulse) ;;
      let value := u8 (Z.shiftr value 1) in
      let number := u8 (number - 1) in
      if number =? 0 then ret tt else SON_sendByte_loop fuel' value number
  end.

Definition SON_sendByte (value number : Z) : M unit :=
  SON_sendByte_loop 256 (u8 value) (u8 number).

(** One pass of the body of the [do] loop of [SON_sendCode]. *)
Definition SON_pass (addr cmd bits : Z) : M unit :=
  SON_startPulse ;;
  SON_sendByte cmd 7 ;;
  (if bits =? 12 then SON_sendByte addr 5
   else if bits =? 15 then SON_sendByte addr 8
   else if bits =? 20 then SON_sendByte addr 8 ;; SON_sendByte (Z.shiftr addr 8) 5
   else ret tt) ;;
  SON_repeatPause.

Definition SON_sendCode (fuel : nat) (addr cmd bits : Z) : M unit :=
  PWM_set SON_FREQ ;;
  do_while fuel (SON_pass addr cmd bits) KEY_read.

(** ** The main loop *)

(** The key assignments of [config.h]. *)
Definition KEY1 (fuel : nat) : M unit := NEC_sendCode fuel 0x04 0x08.
Definition KEY2 (fuel : nat) : M unit := RC5_sendCode fuel 0x00 0x0B.
Definition KEY3 (fuel : nat) : M unit := SON_sendCode fuel 0x01 0x15 12.
Definition KEY4 (fuel : nat) : M unit := SAM_sendCode fuel 0x07 0x02.
Definition KEY5 : M unit := DLY_ms 10.

(** One turn of [while(1)] in [main]. *)
Definition main_turn (fuel : nat) : M unit :=
  STDBY_WFE_now ;;
  DLY_ms 1 ;;
  key <- KEY_read ;;
  if key =? 1 then KEY1 fuel
  else if key =? 2 then KEY2 fuel
  else if key =? 3 then KEY3 fuel
  else if key =? 4 then KEY4 fuel
  else if key =? 5 then KEY5
  else ret tt.

End Encoders.

(** ** Waveforms: what the specification says the encoders put on the LED pin *)

(** [n] bits of [v], least significant bit first. *)
Definition bits_lsb (n : nat) (v : Z) : list bool :=
  map (fun j => Z.testbit v (Z.of_nat j)) (seq 0 n).

(** [n] bits of [v], from bit [n-1] down to bit 0. *)
Definition bits_msb (n : nat) (v : Z) : list bool :=
  map (fun j => Z.testbit v (Z.of_nat j)) (rev (seq 0 n)).

(** Timer setting for a carrier of [freq] Hz with 25% duty cycle. *)
Definition carrier (freq : Z) : Event :=
  EvPWM (F_CPU / freq - 1) (F_CPU / freq / 4 + 1).

(** Carrier on for [b] microseconds, then off for [s] microseconds. *)
Definition burst_space (b s : Z) : list Event :=
  [EvOn; EvDlyUs b; EvOff; EvDlyUs s].

(** The results of the next [n] calls of [KEY_read] after [p] calls. *)
Definition responses (pins : nat -> Pins) (p n : nat) : list Z :=
  map (fun i => KEY_scan (pins (p + i)%nat)) (seq 0 n).

(** The next [n] calls of [KEY_read] report a key, the one after reports
    none. *)
Definition held (pins : nat -> Pins) (p n : nat) : bool :=
  forallb (fun k => negb (k =? 0)) (responses pins p n)
  && (KEY_scan (pins (p + n)%nat) =? 0).

(** Index of the first of the next [fuel] calls of [KEY_read] that
    reports no key. *)
Fixpoint first_release (pins : nat -> Pins) (p fuel : nat) : option nat :=
  match fuel with
  | O => None
  | S fuel' =>
      if KEY_scan (pins p) =? 0 then Some O
      else option_map S (first_release pins (S p) fuel')
  end.

(** A loop [while(KEY_read()) body] where [body] performs [w]: every
    response but the last is followed by [w]. *)
Definition polled_before (w : list Event) (ks : list Z) : list Event :=
  flat_map (fun k => EvKey k :: w) ks ++ [EvKey 0].

(** A loop [do body while(KEY_read())] where [body] performs [w]: [w]
    comes before every response, the last included. *)
Definition polled_after (w : list Event) (ks : list Z) : list Event :=
  flat_map (fun k => w ++ [EvKey k]) (ks ++ [0]).

(** NEC and SAMSUNG: pulse distance. *)
Definition NEC_mark : list Event := burst_space 552 543.

Definition NEC_bit (b : bool) : list Event :=
  NEC_mark ++ (if b then [EvDlyUs 1125] else []).

Definition NEC_byte (v : Z) : list Event := flat_map NEC_bit (bits_lsb 8 v).

(** The bitwise inverse of a byte. *)
Definition inv8 (b : Z) : Z := 255 - b.

Definition NEC_bytes (addr cmd : Z) : list Z :=
  if addr <=? 0xFF then [addr; inv8 addr; cmd; inv8 cmd]
  else [addr mod 256; addr / 256; cmd; inv8 cmd].

Definition NEC_telegram (addr cmd : Z) : list Event :=
  burst_space 9000 4500 ++ flat_map NEC_byte (NEC_bytes addr cmd) ++ NEC_mark.

Definition NEC_repeat_frame : list Event := burst_space 9000 2250 ++ NEC_mark.

Definition NEC_repeat_cycle : list Event :=
  [EvDlyMs 40] ++ NEC_repeat_frame ++ [EvDlyMs 56].

Definition SAM_bytes (addr cmd : Z) : list Z := [addr; addr; cmd; inv8 cmd].

Definition SAM_telegram (addr cmd : Z) : list Event :=
  burst_space 4500 4500 ++ flat_map NEC_byte (SAM_bytes addr cmd) ++ NEC_mark.

Definition SAM_cycle (addr cmd : Z) : list Event :=
  SAM_telegram addr cmd ++ [EvDlyMs 44].

(** RC-5: bi-phase.  Both bit values use the same two half-bit delays. *)
Definition RC5_half1 : Z := 880.
Definition RC5_half2 : Z := 871.

Definition RC5_bit (b : bool) : list Event :=
  if b then [EvOff; EvDlyUs RC5_half1; EvOn; EvDlyUs RC5_half2]
  else [EvOn; EvDlyUs RC5_half1; EvOff; EvDlyUs RC5_half2].

(** The 14 bits of a message in the order they are sent: start bit,
    inverse of command bit 6, toggle bit, address bits 4..0, command
    bits 5..0. *)
Definition RC5_fields (addr cmd : Z) (t : bool) : list bool :=
  [true; negb (Z.testbit cmd 6); t]
  ++ map (Z.testbit addr) [4; 3; 2; 1; 0]
  ++ map (Z.testbit cmd) [5; 4; 3; 2; 1; 0].

(** The toggle bit a telegram sent from state [s] carries. *)
Definition toggle_bit (s : Machine) : bool := negb (RC5_toggle s =? 0).

Definition RC5_telegram (addr cmd : Z) (t : bool) : list Event :=
  flat_map RC5_bit (RC5_fields addr cmd t) ++ [EvOff].

Definition RC5_cycle (addr cmd : Z) (t : bool) : list Event :=
  RC5_telegram addr cmd t ++ [EvDlyMs 89].

(** The same for arguments of any width: the 14 low bits of the message
    as [RC5_sendCode] assembles it. *)
Definition RC5_raw_cycle (addr cmd toggle : Z) : list Event :=
  flat_map RC5_bit (bits_msb 14 (RC5_message addr cmd toggle))
  ++ [EvOff; EvDlyMs 89].

(** SONY: pulse length. *)
Definition SON_bit (b : bool) : list Event :=
  burst_space (if b then 1192 else 587) 579.

(** Bits [from .. from+n-1] of the address, lowest first. *)
Definition addr_bits (from n : nat) (addr : Z) : list bool :=
  map (fun j => Z.testbit addr (Z.of_nat j)) (seq from n).

Definition SON_address (addr bits : Z) : list bool :=
  if bits =? 12 then addr_bits 0 5 addr
  else if bits =? 15 then addr_bits 0 8 addr
  else if bits =? 20 then addr_bits 0 8 addr ++ addr_bits 8 5 addr
  else [].

Definition SON_telegram (addr cmd bits : Z) : list Event :=
  burst_space 2400 579
  ++ flat_map SON_bit (bits_lsb 7 cmd)
  ++ flat_map SON_bit (SON_address addr bits).

Definition SON_cycle (addr cmd bits : Z) : list Event :=
  SON_telegram addr cmd bits ++ [EvDlyMs 27].

(** The arguments of the calls of [SON_sendByte] in one pass of the loop
    of [SON_sendCode]: (value, number). *)
Definition SON_calls (addr cmd bits : Z) : list (Z * Z) :=
  (cmd, 7) ::
  (if bits =? 12 then [(addr, 5)]
   else if bits =? 15 then [(addr, 8)]
   else if bits =? 20 then [(addr, 8); (Z.shiftr addr 8, 5)]
   else []).

(** The calls of [SON_sendByte] with the arguments [l], in order. *)
Fixpoint SON_sendBytes (l : list (Z * Z)) : M unit :=
  match l with
  | [] => ret tt
  | (value, number) :: l' => SON_sendByte value number ;; SON_sendBytes l'
  end.

(** ** Observations on traces *)

(** [m] returns in every state, having performed exactly [w]. *)
Definition emits (m : M unit) (w : list Event) : Prop :=
  forall s, m s = Some (tt, log w s).

(** No read that found every key released. *)
Definition quiet (w : list Event) : Prop := Forall (fun e => e <> EvKey 0) w.

Definition is_key (e : Event) : bool :=
  match e with EvKey _ => true | _ => false end.

(** What reaches the LED pin: the trace without the key reads. *)
Definition waveform (w : list Event) : list Event :=
  filter (fun e => negb (is_key e)) w.

(** The events of [s'] that were not yet in [s]. *)
Definition emitted (s s' : Machine) : list Event :=
  skipn (length (trace s)) (trace s').

(** Microseconds of carrier and of silence requested by [w], entered
    with the carrier in state [on]. *)
Fixpoint durations (on : bool) (w : list Event) : Z * Z :=
  match w with
  | [] => (0, 0)
  | EvOn :: w' => durations true w'
  | EvOff :: w' => durations false w'
  | EvDlyUs d :: w' =>
      let (b, s) := durations on w' in if on then (b + d, s) else (b, s + d)
  | EvDlyMs d :: w' =>
      let (b, s) := durations on w' in
      if on then (b + 1000 * d, s) else (b, s + 1000 * d)
  | _ :: w' => durations on w'
  end.

(** [x] deviates from [nominal] by at most [t] thousandths of [nominal]. *)
Definition within (t nominal x : Z) : bool :=
  1000 * Z.abs (x - nominal) <=? t * nominal.

(** Protocol values of the NEC bit, in tenths of a microsecond. *)
Definition NEC_nominal_burst : Z := 5625.
Definition NEC_nominal_space (b : bool) : Z := if b then 16875 else 5625.

(** Burst and space requested for an NEC bit both within [t] thousandths
    of the protocol values. *)
Definition NEC_bit_within (t : Z) (b : bool) : bool :=
  let (burst, space) := durations false (NEC_bit b) in
  within t NEC_nominal_burst (10 * burst)
  && within t (NEC_nominal_space b) (10 * space).

(** ** Entry points and reachable states *)

Inductive Call : Type :=
| CallNEC (addr cmd : Z)
| CallSAM (addr cmd : Z)
| CallRC5 (addr cmd : Z)
| CallSON (addr cmd bits : Z).

Definition run_call (pins : nat -> Pins) (fuel : nat) (c : Call) : M unit :=
  match c with
  | CallNEC addr cmd => NEC_sendCode pins fuel addr cmd
  | CallSAM addr cmd => SAM_sendCode pins fuel addr cmd
  | CallRC5 addr cmd => RC5_sendCode pins fuel addr cmd
  | CallSON addr cmd bits => SON_sendCode pins fuel addr cmd bits
  end.

(** What a call does when the keys are read as [ks] and then as 0,
    entered with [RC5_toggle = toggle]. *)
Definition call_trace (c : Call) (toggle : Z) (ks : list Z) : list Event :=
  match c with
  | CallNEC addr cmd =>
      carrier NEC_FREQ :: NEC_telegram addr cmd
      ++ polled_before NEC_repeat_cycle ks
  | CallSAM addr cmd =>
      carrier NEC_FREQ :: polled_after (SAM_cycle addr cmd) ks
  | CallRC5 addr cmd =>
      carrier RC5_FREQ :: polled_after (RC5_raw_cycle addr cmd toggle) ks
  | CallSON addr cmd bits =>
      carrier SON_FREQ :: polled_after (SON_cycle addr cmd bits) ks
  end.

Definition is_RC5 (c : Call) : bool :=
  match c with CallRC5 _ _ => true | _ => false end.

(** Arguments in the range of the parameter types of the entry point. *)
Definition well_typed (c : Call) : Prop :=
  match c with
  | CallNEC addr cmd => 0 <= addr < 65536 /\ 0 <= cmd < 256
  | CallSAM addr cmd => 0 <= addr < 256 /\ 0 <= cmd < 256
  | CallRC5 addr cmd => 0 <= addr < 256 /\ 0 <= cmd < 256
  | CallSON addr cmd bits => 0 <= addr < 65536 /\ 0 <= cmd < 256 /\ 0 <= bits < 256
  end.

(** States the program can be in between two calls of an encoder. *)
Inductive reachable (pins : nat -> Pins) : Machine -> Prop :=
| reach_reset : reachable pins reset
| reach_call fuel c s s' :
    reachable pins s ->
    well_typed c ->
    run_call pins fuel c s = Some (tt, s') ->
    reachable pins s'.

(** ** The hold query as the specification words it *)

(** "Is the button that triggered this telegram still asserted?" *)
Definition origin_asserted (origin : Key) (p : Pins) : bool :=
  negb (PIN_read p origin).

(** ** Sample pin levels *)

Definition released : Pins := fun _ => true.

Definition only (k : Key) : Pins := fun k' =>
  match k, k' with
  | PIN_KEY1, PIN_KEY1 | PIN_KEY2, PIN_KEY2 | PIN_KEY3, PIN_KEY3
  | PIN_KEY4, PIN_KEY4 | PIN_KEY5, PIN_KEY5 => false
  | _, _ => true
  end.

(** Key [k] down for the first [n] reads, then every key up. *)
Definition press (k : Key) (n : nat) : nat -> Pins :=
  fun i => if (i <? n)%nat then only k else released.

(** Key 1 down at the first read, key 2 (alone) down at the second, every
    key up afterwards. *)
Definition swap_keys : nat -> Pins :=
  fun i => match i with
           | O => only PIN_KEY1
           | S O => only PIN_KEY2
           | _ => released
           end.

(** ** Further observations: the main loop, carrier state and air time *)

(** The value [KEY_read] returns for each key. *)
Definition key_number (k : Key) : Z :=
  match k with
  | PIN_KEY1 => 1 | PIN_KEY2 => 2 | PIN_KEY3 => 3 | PIN_KEY4 => 4 | PIN_KEY5 => 5
  end.

(** The encoder call [config.h] assigns to a key number; key 5 and the
    numbers that are no key have none. *)
Definition KEY_call (k : Z) : option Call :=
  if k =? 1 then Some (CallNEC 0x04 0x08)
  else if k =? 2 then Some (CallRC5 0x00 0x0B)
  else if k =? 3 then Some (CallSON 0x01 0x15 12)
  else if k =? 4 then Some (CallSAM 0x07 0x02)
  else None.

(** The first [turns] turns of [while(1)] in [main]. *)
Fixpoint main_loop (pins : nat -> Pins) (turns fuel : nat) : M unit :=
  match turns with
  | O => ret tt
  | S turns' => main_turn pins fuel ;; main_loop pins turns' fuel
  end.

(** Whether the LED pin outputs the carrier after [w], entered in state
    [on]. *)
Fixpoint carrier_after (on : bool) (w : list Event) : bool :=
  match w with
  | [] => on
  | EvOn :: w' => carrier_after true w'
  | EvOff :: w' => carrier_after false w'
  | _ :: w' => carrier_after on w'
  end.

(** Every millisecond delay, key read and standby of [w] happens with the
    carrier off, [w] entered in state [on]. *)
Fixpoint pauses_dark (on : bool) (w : list Event) : bool :=
  match w with
  | [] => true
  | EvOn :: w' => pauses_dark true w'
  | EvOff :: w' => pauses_dark false w'
  | EvDlyMs _ :: w' | EvKey _ :: w' | EvStandby :: w' =>
      negb on && pauses_dark on w'
  | _ :: w' => pauses_dark on w'
  end.

(** [w] is safe to enter with the carrier off and leaves it off. *)
Definition calm (w : list Event) : Prop :=
  carrier_after false w = false /\ pauses_dark false w = true.

(** [w] is safe to enter in either state and leaves the carrier off. *)
Definition settled (w : list Event) : Prop :=
  forall on, carrier_after on w = false /\ pauses_dark on w = true.

(** Componentwise sum of (carrier, silence) times. *)
Definition padd (p q : Z * Z) : Z * Z := (fst p + fst q, snd p + snd q).

(** Number of 1 bits. *)
Definition ones (l : list bool) : Z :=
  Z.of_nat (length (filter (fun b : bool => b) l)).

(** The two delays of a bit cell of four events: the one after the first
    switch of the carrier and the one after the second. *)
Definition half_bit_delays (w : list Event) : option (Z * Z) :=
  match w with
  | [_; EvDlyUs a; _; EvDlyUs b] => Some (a, b)
  | _ => None
  end.

(** Address bits a SONY variant sends. *)
Definition SON_addr_width (bits : Z) : Z :=
  if bits =? 12 then 5 else if bits =? 15 then 8 else if bits =? 20 then 13 else 0.

(** * Proofs *)

(** ** Machine integers and bits *)

Lemma u8_small : forall x, 0 <= x < 256 -> u8 x = x.
Proof. intros x Hx. unfold u8. apply Z.mod_small. exact Hx. Qed.

Lemma u16_small : forall x, 0 <= x < 65536 -> u16 x = x.
Proof. intros x Hx. unfold u16. apply Z.mod_small. exact Hx. Qed.

Lemma u8_range : forall x, 0 <= u8 x < 256.
Proof. intros x. unfold u8. apply Z.mod_pos_bound. lia. Qed.

(** [~x] converted to [uint8_t] is the inverse of the low byte of [x]. *)
Lemma u8_lnot : forall x, u8 (Z.lnot x) = inv8 (u8 x).
Proof.
  intros x. unfold u8, inv8.
  pose proof (Z.mod_pos_bound x 256 ltac:(lia)) as Hr.
  pose proof (Z.div_mod x 256 ltac:(lia)) as Hd.
  symmetry. apply (Z.mod_unique_pos _ _ (- (x / 256) - 1)); [lia|].
  unfold Z.lnot. lia.
Qed.

Lemma testbit_u8 : forall x j, 0 <= j < 8 -> Z.testbit (u8 x) j = Z.testbit x j.
Proof.
  intros x j Hj. unfold u8. change 256 with (2 ^ 8).
  apply Z.mod_pow2_bits_low. lia.
Qed.

(** The bits of [inv8 b] are the negated bits of [b]. *)
Lemma inv8_testbit : forall b j,
  0 <= b < 256 -> 0 <= j < 8 -> Z.testbit (inv8 b) j = negb (Z.testbit b j).
Proof.
  intros b j Hb Hj.
  rewrite <- (u8_small b Hb) at 1. rewrite <- u8_lnot.
  rewrite testbit_u8 by exact Hj. apply Z.lnot_spec. lia.
Qed.

Lemma testbit_above : forall n x j,
  0 <= n -> 0 <= x < 2 ^ n -> n <= j -> Z.testbit x j = false.
Proof.
  intros n x j Hn Hx Hj.
  rewrite <- (Z.mod_small x (2 ^ n)) by exact Hx.
  apply Z.mod_pow2_bits_high. lia.
Qed.

(** [value & 1] is bit 0 of [value]. *)
Lemma land_1_test : forall v, negb (Z.land v 1 =? 0) = Z.testbit v 0.
Proof.
  intros v. change 1 with (Z.ones 1) at 1. rewrite Z.land_ones by lia.
  change (2 ^ 1) with 2. rewrite <- Z.bit0_mod.
  destruct (Z.testbit v 0); reflexivity.
Qed.

(** [message & bitmask] for a one-bit mask is that bit of [message]. *)
Lemma land_pow2_test : forall m j,
  0 <= j -> negb (Z.land m (2 ^ j) =? 0) = Z.testbit m j.
Proof.
  intros m j Hj.
  destruct (Z.testbit m j) eqn:Hb.
  - destruct (Z.eqb_spec (Z.land m (2 ^ j)) 0) as [E|E]; [|reflexivity].
    assert (Hc : Z.testbit (Z.land m (2 ^ j)) j = true)
      by (rewrite Z.land_spec, Hb, Z.pow2_bits_true by lia; reflexivity).
    rewrite E, Z.bits_0 in Hc. discriminate.
  - assert (E : Z.land m (2 ^ j) = 0).
    { apply Z.bits_inj'. intros i Hi.
      rewrite Z.land_spec, Z.bits_0, Z.pow2_bits_eqb by lia.
      destruct (Z.eqb_spec j i) as [->|]; [rewrite Hb|]; 
        rewrite ?andb_false_r; reflexivity. }
    rewrite E. reflexivity.
Qed.

Lemma shiftr1_range : forall v, 0 <= v < 256 -> 0 <= Z.shiftr v 1 < 256.
Proof.
  intros v Hv. rewrite Z.shiftr_div_pow2 by lia. change (2 ^ 1) with 2.
  split; [apply Z.div_pos; lia | apply Z.div_lt_upper_bound; lia].
Qed.

Lemma bits_lsb_S : forall n v,
  bits_lsb (S n) v = Z.testbit v 0 :: bits_lsb n (Z.shiftr v 1).
Proof.
  intros n v. unfold bits_lsb. cbn [seq map]. f_equal.
  rewrite <- seq_shift, map_map. apply map_ext. intros j.
  rewrite Z.shiftr_spec by lia. f_equal. lia.
Qed.

Lemma bits_msb_S : forall n v,
  bits_msb (S n) v = Z.testbit v (Z.of_nat n) :: bits_msb n v.
Proof.
  intros n v. unfold bits_msb. rewrite seq_S, rev_app_distr. reflexivity.
Qed.

Lemma bits_lsb_length : forall n v, length (bits_lsb n v) = n.
Proof. intros n v. unfold bits_lsb. rewrite length_map, length_seq. reflexivity. Qed.

Lemma bits_lsb_u8 : forall n v, (n <= 8)%nat -> bits_lsb n (u8 v) = bits_lsb n v.
Proof.
  intros n v Hn. unfold bits_lsb. apply map_ext_in. intros j Hj.
  apply in_seq in Hj. apply testbit_u8. lia.
Qed.

(** ** Computations that only append events *)

Lemma log_app : forall w1 w2 s, log (w1 ++ w2) s = log w2 (log w1 s).
Proof. intros. unfold log. cbn. rewrite app_assoc. reflexivity. Qed.

Lemma log_nil : forall s, log [] s = s.
Proof. intros [t p w]. unfold log. cbn. rewrite app_nil_r. reflexivity. Qed.

Lemma emits_emit : forall e, emits (emit e) [e].
Proof. intros e s. reflexivity. Qed.

Lemma emits_ret : emits (ret tt) [].
Proof. intros s. unfold ret. rewrite log_nil. reflexivity. Qed.

Lemma emits_bind : forall m k w1 w2,
  emits m w1 -> emits k w2 -> emits (m ;; k) (w1 ++ w2).
Proof.
  intros m k w1 w2 Hm Hk s. unfold bind. rewrite Hm, Hk, log_app. reflexivity.
Qed.

Lemma emits_eq : forall m w w', emits m w -> w = w' -> emits m w'.
Proof. intros m w w' H <-. exact H. Qed.

Lemma emits_burst_space : forall b s,
  emits (IR_on ;; DLY_us b ;; IR_off ;; DLY_us s) (burst_space b s).
Proof.
  intros b s. unfold burst_space.
  apply (emits_bind _ _ [EvOn] [EvDlyUs b; EvOff; EvDlyUs s]); [apply emits_emit|].
  apply (emits_bind _ _ [EvDlyUs b] [EvOff; EvDlyUs s]); [apply emits_emit|].
  apply (emits_bind _ _ [EvOff] [EvDlyUs s]); apply emits_emit.
Qed.

Lemma emits_PWM_set : forall f, emits (PWM_set f) [carrier f].
Proof. intros f. apply emits_emit. Qed.

Lemma bind_emits : forall (m : M unit) (k : M unit) w s,
  emits m w -> (m ;; k) s = k (log w s).
Proof. intros m k w s Hm. unfold bind. rewrite Hm. reflexivity. Qed.

(** ** The byte and bit loops *)

Lemma emits_when : forall (c : bool) m w,
  emits m w -> emits (when c m) (if c then w else []).
Proof. intros [|] m w H; [exact H | apply emits_ret]. Qed.

Lemma NEC_sendByte_loop_emits : forall k fuel v,
  (k <= fuel)%nat -> (k <= 255)%nat -> 0 <= v < 256 ->
  emits (NEC_sendByte_loop fuel (Z.of_nat k) v) (flat_map NEC_bit (bits_lsb k v)).
Proof.
  induction k as [|k IH]; intros fuel v Hf Hk Hv.
  - destruct fuel; apply emits_ret.
  - destruct fuel as [|fuel]; [lia|].
    cbn [NEC_sendByte_loop].
    replace (Z.of_nat (S k) =? 0) with false by (symmetry; apply Z.eqb_neq; lia).
    replace (u8 (Z.of_nat (S k) - 1)) with (Z.of_nat k)
      by (rewrite u8_small by lia; lia).
    rewrite (u8_small _ (shiftr1_range v Hv)), bits_lsb_S, land_1_test.
    cbn [flat_map]. unfold NEC_bit at 1. rewrite <- app_assoc.
    apply emits_bind; [apply emits_burst_space|].
    apply emits_bind; [apply emits_when, emits_emit|].
    apply IH; [lia | lia | apply shiftr1_range, Hv].
Qed.

Lemma NEC_sendByte_emits : forall v, emits (NEC_sendByte v) (NEC_byte (u8 v)).
Proof.
  intros v. unfold NEC_sendByte, NEC_byte.
  apply (NEC_sendByte_loop_emits 8 8); [lia | lia | apply u8_range].
Qed.

Lemma emits_RC5_bit : forall b : bool,
  emits (if b then RC5_bit1Pulse else RC5_bit0Pulse) (RC5_bit b).
Proof.
  intros [|]; unfold RC5_bit.
  - apply (emits_bind _ _ [EvOff] [EvDlyUs 880; EvOn; EvDlyUs 871]); [apply emits_emit|].
    apply (emits_bind _ _ [EvDlyUs 880] [EvOn; EvDlyUs 871]); [apply emits_emit|].
    apply (emits_bind _ _ [EvOn] [EvDlyUs 871]); apply emits_emit.
  - apply (emits_burst_space 880 871).
Qed.

Lemma half_pow2_S : forall k : nat, Z.shiftr (2 ^ Z.of_nat (S k)) 1 = 2 ^ Z.of_nat k.
Proof.
  intros k. rewrite Z.shiftr_div_pow2 by lia.
  rewrite Nat2Z.inj_succ, Z.pow_succ_r by lia.
  change (2 ^ 1) with 2. rewrite Z.mul_comm. apply Z.div_mul. lia.
Qed.

Lemma half_pow2_range : forall k : nat,
  (k <= 16)%nat -> 0 <= Z.shiftr (2 ^ Z.of_nat k) 1 < 65536.
Proof.
  intros k Hk. rewrite Z.shiftr_div_pow2 by lia. change (2 ^ 1) with 2.
  assert (0 < 2 ^ Z.of_nat k <= 2 ^ 16)
    by (split; [apply Z.pow_pos_nonneg | apply Z.pow_le_mono_r]; lia).
  change (2 ^ 16) with 65536 in *.
  split; [apply Z.div_pos | apply Z.div_lt_upper_bound]; lia.
Qed.

Lemma RC5_send_loop_emits : forall k fuel m,
  (k <= fuel)%nat -> (k <= 16)%nat ->
  emits (RC5_send_loop fuel m (Z.of_nat k) (Z.shiftr (2 ^ Z.of_nat k) 1))
        (flat_map RC5_bit (bits_msb k m)).
Proof.
  induction k as [|k IH]; intros fuel m Hf Hk.
  - destruct fuel; apply emits_ret.
  - destruct fuel as [|fuel]; [lia|].
    cbn [RC5_send_loop].
    replace (Z.of_nat (S k) =? 0) with false by (symmetry; apply Z.eqb_neq; lia).
    replace (u8 (Z.of_nat (S k) - 1)) with (Z.of_nat k)
      by (rewrite u8_small by lia; lia).
    rewrite half_pow2_S, land_pow2_test by lia.
    rewrite (u16_small _ (half_pow2_range k ltac:(lia))), bits_msb_S.
    cbn [flat_map].
    apply emits_bind; [apply emits_RC5_bit|].
    apply IH; lia.
Qed.

Lemma u8_pred : forall x, u8 (u8 x - 1) = u8 (x - 1).
Proof. intros x. unfold u8. apply Zminus_mod_idemp_l. Qed.

Lemma emits_SON_bit : forall b : bool,
  emits (if b then SON_bit1Pulse else SON_bit0Pulse) (SON_bit b).
Proof. intros [|]; apply emits_burst_space. Qed.

(** The loop of [SON_sendByte] entered with the counter at [S k] modulo
    256 runs [S k] times, for every [k] up to 255: entered with [number = 0]
    it runs 256 times. *)
Lemma SON_sendByte_loop_emits : forall k fuel v,
  (k <= 255)%nat -> (k < fuel)%nat -> 0 <= v < 256 ->
  emits (SON_sendByte_loop fuel v (u8 (Z.of_nat (S k))))
        (flat_map SON_bit (bits_lsb (S k) v)).
Proof.
  induction k as [|k IH]; intros fuel v Hk Hf Hv;
    (destruct fuel as [|fuel]; [lia|]);
    cbn [SON_sendByte_loop]; cbv zeta;
    rewrite land_1_test, bits_lsb_S, (u8_small _ (shiftr1_range v Hv));
    cbn [flat_map]; rewrite u8_pred.
  - change (u8 (Z.of_nat 1 - 1) =? 0) with true.
    apply emits_bind; [apply emits_SON_bit | apply emits_ret].
  - replace (Z.of_nat (S (S k)) - 1) with (Z.of_nat (S k)) by lia.
    replace (u8 (Z.of_nat (S k)) =? 0) with false
      by (symmetry; apply Z.eqb_neq; rewrite u8_small; lia).
    apply emits_bind; [apply emits_SON_bit|].
    apply IH; [lia | lia | apply shiftr1_range, Hv].
Qed.

Lemma SON_sendByte_emits : forall v number,
  1 <= number <= 255 ->
  emits (SON_sendByte v number)
        (flat_map SON_bit (bits_lsb (Z.to_nat number) (u8 v))).
Proof.
  intros v number Hn. unfold SON_sendByte.
  destruct (Z.to_nat number) as [|k] eqn:Hk; [lia|].
  replace number with (Z.of_nat (S k)) by lia.
  apply SON_sendByte_loop_emits; [lia | lia | apply u8_range].
Qed.

Lemma SON_sendByte_0_emits : forall v,
  emits (SON_sendByte v 0) (flat_map SON_bit (bits_lsb 256 (u8 v))).
Proof.
  intros v. unfold SON_sendByte.
  change (u8 0) with (u8 (Z.of_nat 256)).
  apply (SON_sendByte_loop_emits 255 256); [lia | lia | apply u8_range].
Qed.

(** ** The RC-5 message *)

Lemma RC5_message_testbit : forall addr cmd toggle j,
  0 <= j < 16 ->
  Z.testbit (RC5_message addr cmd toggle) j =
    (13 =? j) || ((12 =? j) && negb (Z.testbit cmd 6))
    || ((11 =? j) && negb (toggle =? 0))
    || ((6 <=? j) && Z.testbit addr (j - 6))
    || ((j <? 6) && Z.testbit cmd j).
Proof.
  intros addr cmd toggle j Hj. unfold RC5_message.
  change 0x40 with (2 ^ 6). rewrite land_pow2_test, Z.lnot_spec by lia.
  assert (Hm : Z.testbit (Z.lor (u16 (Z.shiftl addr 6)) (Z.land cmd 0x3f)) j
               = ((6 <=? j) && Z.testbit addr (j - 6)) || ((j <? 6) && Z.testbit cmd j)).
  { rewrite Z.lor_spec, Z.land_spec. unfold u16. change 65536 with (2 ^ 16).
    rewrite Z.mod_pow2_bits_low by lia.
    change 0x3f with (Z.ones 6). rewrite Z.testbit_ones_nonneg by lia.
    destruct (Z.leb_spec 6 j) as [H6|H6].
    - rewrite Z.shiftl_spec by lia.
      replace (j <? 6) with false by (symmetry; apply Z.ltb_ge; lia).
      rewrite andb_false_r. reflexivity.
    - rewrite Z.shiftl_spec_low by lia.
      replace (j <? 6) with true by (symmetry; apply Z.ltb_lt; lia).
      rewrite andb_true_r. reflexivity. }
  remember (Z.lor (u16 (Z.shiftl addr 6)) (Z.land cmd 0x3f)) as m0 eqn:Em0.
  clear Em0. unfold RC5_startBit, RC5_cmdBit7, RC5_toggleBit.
  change 0x2000 with (2 ^ 13). change 0x1000 with (2 ^ 12). change 0x0800 with (2 ^ 11).
  destruct (negb (Z.testbit cmd 6)), (negb (toggle =? 0));
    rewrite ?Z.lor_spec, ?Z.pow2_bits_eqb, Hm by lia;
    destruct (13 =? j), (12 =? j), (11 =? j), (6 <=? j), (j <? 6),
      (Z.testbit addr (j - 6)), (Z.testbit cmd j); reflexivity.
Qed.

Lemma RC5_message_fields : forall addr cmd toggle,
  0 <= addr < 32 ->
  bits_msb 14 (RC5_message addr cmd toggle)
  = RC5_fields addr cmd (negb (toggle =? 0)).
Proof.
  intros addr cmd toggle Ha.
  assert (H5 : Z.testbit addr 5 = false) by (apply (testbit_above 5); lia).
  assert (H6 : Z.testbit addr 6 = false) by (apply (testbit_above 5); lia).
  unfold bits_msb, RC5_fields. cbn [seq rev app map Z.of_nat Pos.of_succ_nat Pos.succ].
  rewrite !RC5_message_testbit by lia.
  cbn [Z.eqb Z.leb Z.ltb Z.compare Pos.eqb Pos.compare Pos.compare_cont Z.sub
       Z.add Z.opp Z.pos_sub Z.succ_double Z.pred_double Z.double Pos.pred_double
       orb andb].
  rewrite H5, H6, !orb_false_r. reflexivity.
Qed.

(** ** The key loops *)

Section Runs.

Variable pins : nat -> Pins.

Lemma responses_S : forall p n,
  responses pins p (S n) = KEY_scan (pins p) :: responses pins (S p) n.
Proof.
  intros p n. unfold responses. cbn [seq map]. rewrite Nat.add_0_r. f_equal.
  rewrite <- seq_shift, map_map. apply map_ext. intros i.
  rewrite Nat.add_succ_r. reflexivity.
Qed.

Lemma responses_length : forall p n, length (responses pins p n) = n.
Proof. intros. unfold responses. rewrite length_map, length_seq. reflexivity. Qed.

Lemma held_S : forall p n,
  held pins p (S n) = negb (KEY_scan (pins p) =? 0) && held pins (S p) n.
Proof.
  intros p n. unfold held. rewrite responses_S. cbn [forallb].
  rewrite Nat.add_succ_r, andb_assoc. reflexivity.
Qed.

Lemma held_0 : forall p, held pins p 0 = (KEY_scan (pins p) =? 0).
Proof. intros p. unfold held. cbn. rewrite Nat.add_0_r. reflexivity. Qed.

(** [first_release] finds [n] exactly when the keys are held for [n]
    reads and [n] is within the bound. *)
Lemma first_release_held : forall fuel p n,
  first_release pins p fuel = Some n <-> held pins p n = true /\ (n < fuel)%nat.
Proof.
  induction fuel as [|fuel IH]; intros p n; cbn [first_release].
  - split; [discriminate | lia].
  - destruct n as [|n].
    + rewrite held_0. destruct (KEY_scan (pins p) =? 0).
      * split; [split; [reflexivity | lia] | reflexivity].
      * destruct (first_release pins (S p) fuel); cbn;
          (split; [discriminate | intros [? _]; discriminate]).
    + rewrite held_S. destruct (KEY_scan (pins p) =? 0); cbn [negb andb].
      * split; [discriminate | intros [? _]; discriminate].
      * rewrite <- Nat.succ_lt_mono, <- IH.
        destruct (first_release pins (S p) fuel) as [m|]; cbn [option_map];
          split; intros E; try discriminate; injection E as ->; reflexivity.
Qed.

(** The released read is unique: two hold lengths from the same read
    agree. *)
Lemma held_unique : forall n p m,
  held pins p n = true -> held pins p m = true -> n = m.
Proof.
  induction n as [|n IH]; intros p [|m]; rewrite ?held_0, ?held_S; intros H1 H2.
  - reflexivity.
  - rewrite H1 in H2. discriminate.
  - rewrite H2 in H1. discriminate.
  - apply andb_prop in H1, H2. f_equal. apply (IH (S p)); tauto.
Qed.

(** Every response counted by [held] is a key number, not 0. *)
Lemma held_responses : forall n p,
  held pins p n = true -> Forall (fun k => k <> 0) (responses pins p n).
Proof.
  induction n as [|n IH]; intros p H.
  - constructor.
  - rewrite held_S in H. apply andb_prop in H. destruct H as [H1 H2].
    rewrite responses_S. constructor; [|apply IH, H2].
    apply Z.eqb_neq. destruct (KEY_scan (pins p) =? 0); [discriminate | reflexivity].
Qed.

(** A release somewhere ahead gives a first release. *)
Lemma release_ahead : forall m p,
  KEY_scan (pins (p + m)%nat) = 0 -> exists n, (n <= m)%nat /\ held pins p n = true.
Proof.
  induction m as [|m IH]; intros p H.
  - exists O. split; [lia|]. rewrite held_0. rewrite Nat.add_0_r in H.
    apply Z.eqb_eq, H.
  - destruct (KEY_scan (pins p) =? 0) eqn:E.
    + exists O. split; [lia|]. rewrite held_0. exact E.
    + rewrite Nat.add_succ_r in H. destruct (IH (S p) H) as [n [Hn Hh]].
      exists (S n). split; [lia|]. rewrite held_S, E, Hh. reflexivity.
Qed.

Lemma while_loop_spec : forall body w,
  emits body w ->
  forall fuel s,
  while_loop fuel (KEY_read pins) body s =
  match first_release pins (polls s) fuel with
  | Some n =>
      Some (tt, mkMachine (RC5_toggle s) (polls s + S n)
                  (trace s ++ polled_before w (responses pins (polls s) n)))
  | None => None
  end.
Proof.
  intros body w Hb. induction fuel as [|fuel IH]; intros s; [reflexivity|].
  cbn [while_loop first_release]. unfold bind at 1. unfold KEY_read at 1. cbv zeta.
  destruct (Z.eqb_spec (KEY_scan (pins (polls s))) 0) as [E|E].
  - rewrite E. unfold ret, polled_before. cbn [responses seq map flat_map app].
    rewrite Nat.add_1_r. reflexivity.
  - rewrite (bind_emits _ _ _ _ Hb), IH. cbn [log polls RC5_toggle trace].
    destruct (first_release pins (S (polls s)) fuel) as [n|]; [|reflexivity].
    cbn [option_map]. rewrite responses_S. unfold polled_before.
    cbn [flat_map]. rewrite <- !app_assoc. cbn [app].
    rewrite (Nat.add_succ_r (polls s) (S n)). reflexivity.
Qed.

Lemma do_while_spec : forall body w,
  emits body w ->
  forall fuel s,
  do_while fuel body (KEY_read pins) s =
  match first_release pins (polls s) fuel with
  | Some n =>
      Some (tt, mkMachine (RC5_toggle s) (polls s + S n)
                  (trace s ++ polled_after w (responses pins (polls s) n)))
  | None => None
  end.
Proof.
  intros body w Hb. induction fuel as [|fuel IH]; intros s; [reflexivity|].
  cbn [do_while first_release]. rewrite (bind_emits _ _ _ _ Hb).
  unfold bind at 1. unfold KEY_read at 1. cbv zeta. cbn [log polls RC5_toggle trace].
  destruct (Z.eqb_spec (KEY_scan (pins (polls s))) 0) as [E|E].
  - rewrite E. unfold ret, polled_after. cbn [responses seq map flat_map app].
    rewrite Nat.add_1_r, app_nil_r, <- app_assoc. reflexivity.
  - rewrite IH. cbn [polls RC5_toggle trace].
    destruct (first_release pins (S (polls s)) fuel) as [n|]; [|reflexivity].
    cbn [option_map]. rewrite responses_S. unfold polled_after.
    cbn [flat_map app]. rewrite <- !app_assoc.
    rewrite (Nat.add_succ_r (polls s) (S n)). reflexivity.
Qed.

(** ** The four encoders, for every bound on the key loop *)

Lemma NEC_address_emits : forall addr,
  0 <= addr < 65536 ->
  emits (if 0xff <? addr
         then NEC_sendByte addr ;; NEC_sendByte (Z.shiftr addr 8)
         else NEC_sendByte addr ;; NEC_sendByte (Z.lnot addr))
        (if addr <=? 0xFF then NEC_byte addr ++ NEC_byte (inv8 addr)
         else NEC_byte (addr mod 256) ++ NEC_byte (addr / 256)).
Proof.
  intros addr Ha. destruct (Z.ltb_spec 0xff addr) as [H|H].
  - replace (addr <=? 0xFF) with false by (symmetry; apply Z.leb_gt; lia).
    apply emits_bind; [apply NEC_sendByte_emits|].
    eapply emits_eq; [apply NEC_sendByte_emits|]. f_equal.
    rewrite Z.shiftr_div_pow2 by lia. change (2 ^ 8) with 256.
    apply u8_small. split; [apply Z.div_pos | apply Z.div_lt_upper_bound]; lia.
  - replace (addr <=? 0xFF) with true by (symmetry; apply Z.leb_le; lia).
    eapply emits_eq; [apply emits_bind; apply NEC_sendByte_emits|].
    rewrite u8_lnot, u8_small by lia. reflexivity.
Qed.

Lemma NEC_command_emits : forall cmd,
  0 <= cmd < 256 ->
  emits (NEC_sendByte cmd ;; NEC_sendByte (Z.lnot cmd) ;; NEC_normalPulse)
        (NEC_byte cmd ++ NEC_byte (inv8 cmd) ++ NEC_mark).
Proof.
  intros cmd Hc.
  eapply emits_eq.
  - apply emits_bind; [apply NEC_sendByte_emits|].
    apply emits_bind; [apply NEC_sendByte_emits | apply emits_burst_space].
  - rewrite u8_lnot, u8_small by lia. reflexivity.
Qed.

Lemma NEC_repeatCode_emits : emits NEC_repeatCode NEC_repeat_cycle.
Proof.
  unfold NEC_repeatCode, NEC_repeat_cycle, NEC_repeat_frame.
  apply emits_bind; [apply emits_emit|]. rewrite <- app_assoc.
  apply emits_bind; [apply emits_burst_space|].
  apply emits_bind; [apply emits_burst_space | apply emits_emit].
Qed.

Lemma NEC_sendCode_spec : forall fuel addr cmd s,
  0 <= addr < 65536 -> 0 <= cmd < 256 ->
  NEC_sendCode pins fuel addr cmd s =
  match first_release pins (polls s) fuel with
  | Some n =>
      Some (tt, mkMachine (RC5_toggle s) (polls s + S n)
                  (trace s ++ carrier NEC_FREQ :: NEC_telegram addr cmd
                   ++ polled_before NEC_repeat_cycle (responses pins (polls s) n)))
  | None => None
  end.
Proof.
  intros fuel addr cmd s Ha Hc. unfold NEC_sendCode.
  rewrite (bind_emits _ _ _ _ (emits_PWM_set NEC_FREQ)).
  rewrite (bind_emits _ _ _ _ (emits_burst_space 9000 4500)).
  rewrite (bind_emits _ _ _ _ (NEC_address_emits addr Ha)).
  pose proof (NEC_command_emits cmd Hc) as Hcmd.
  assert (Hk : forall (k : M unit) st,
             (NEC_sendByte cmd ;; NEC_sendByte (Z.lnot cmd) ;; NEC_normalPulse ;; k) st
             = k (log (NEC_byte cmd ++ NEC_byte (inv8 cmd) ++ NEC_mark) st)).
  { intros k st. specialize (Hcmd st). unfold bind in *.
    destruct (NEC_sendByte cmd st) as [[[] s1]|]; [|discriminate].
    destruct (NEC_sendByte (Z.lnot cmd) s1) as [[[] s2]|]; [|discriminate].
    rewrite Hcmd. reflexivity. }
  rewrite Hk, (while_loop_spec _ _ NEC_repeatCode_emits).
  cbn [log polls RC5_toggle trace].
  destruct (first_release pins (polls s) fuel) as [n|]; [|reflexivity].
  do 3 f_equal. unfold NEC_telegram, NEC_bytes.
  destruct (addr <=? 0xFF); cbn [flat_map]; rewrite ?app_nil_r, <- ?app_assoc;
    reflexivity.
Qed.

Lemma SAM_cycle_emits : forall addr cmd,
  0 <= addr < 256 -> 0 <= cmd < 256 ->
  emits (SAM_startPulse ;; NEC_sendByte addr ;; NEC_sendByte addr ;;
         NEC_sendByte cmd ;; NEC_sendByte (Z.lnot cmd) ;; NEC_normalPulse ;;
         SAM_repeatPause)
        (SAM_cycle addr cmd).
Proof.
  intros addr cmd Ha Hc. eapply emits_eq.
  - apply emits_bind; [apply emits_burst_space|].
    apply emits_bind; [apply NEC_sendByte_emits|].
    apply emits_bind; [apply NEC_sendByte_emits|].
    apply emits_bind; [apply NEC_sendByte_emits|].
    apply emits_bind; [apply NEC_sendByte_emits|].
    apply emits_bind; [apply emits_burst_space | apply emits_emit].
  - rewrite u8_lnot, !u8_small by lia.
    unfold SAM_cycle, SAM_telegram, SAM_bytes. cbn [flat_map].
    rewrite app_nil_r, <- !app_assoc. reflexivity.
Qed.

Lemma SAM_sendCode_spec : forall fuel addr cmd s,
  0 <= addr < 256 -> 0 <= cmd < 256 ->
  SAM_sendCode pins fuel addr cmd s =
  match first_release pins (polls s) fuel with
  | Some n =>
      Some (tt, mkMachine (RC5_toggle s) (polls s + S n)
                  (trace s ++ carrier NEC_FREQ
                   :: polled_after (SAM_cycle addr cmd) (responses pins (polls s) n)))
  | None => None
  end.
Proof.
  intros fuel addr cmd s Ha Hc. unfold SAM_sendCode.
  rewrite (bind_emits _ _ _ _ (emits_PWM_set NEC_FREQ)).
  rewrite (do_while_spec _ _ (SAM_cycle_emits addr cmd Ha Hc)).
  cbn [log polls RC5_toggle trace].
  destruct (first_release pins (polls s) fuel) as [n|]; [|reflexivity].
  rewrite <- app_assoc. reflexivity.
Qed.

Lemma RC5_cycle_emits : forall addr cmd toggle,
  emits (RC5_send_loop 14 (RC5_message addr cmd toggle) 14 RC5_startBit ;;
         IR_off ;; RC5_repeatPause)
        (RC5_raw_cycle addr cmd toggle).
Proof.
  intros addr cmd toggle. unfold RC5_raw_cycle.
  apply emits_bind.
  - apply (RC5_send_loop_emits 14 14); lia.
  - apply (emits_bind _ _ [EvOff] [EvDlyMs 89]); apply emits_emit.
Qed.

Lemma RC5_raw_cycle_fields : forall addr cmd toggle,
  0 <= addr < 32 ->
  RC5_raw_cycle addr cmd toggle = RC5_cycle addr cmd (negb (toggle =? 0)).
Proof.
  intros addr cmd toggle Ha. unfold RC5_raw_cycle.
  rewrite (RC5_message_fields addr cmd toggle Ha).
  unfold RC5_cycle, RC5_telegram. rewrite <- app_assoc. reflexivity.
Qed.

Lemma RC5_sendCode_spec : forall fuel addr cmd s,
  RC5_sendCode pins fuel addr cmd s =
  match first_release pins (polls s) fuel with
  | Some n =>
      Some (tt, mkMachine (u8 (Z.lxor (RC5_toggle s) 1)) (polls s + S n)
                  (trace s ++ carrier RC5_FREQ
                   :: polled_after (RC5_raw_cycle addr cmd (RC5_toggle s))
                                   (responses pins (polls s) n)))
  | None => None
  end.
Proof.
  intros fuel addr cmd s. unfold RC5_sendCode.
  rewrite (bind_emits _ _ _ _ (emits_PWM_set RC5_FREQ)).
  unfold bind at 1. unfold get_RC5_toggle at 1. cbn [log polls RC5_toggle trace].
  unfold bind at 1.
  rewrite (do_while_spec _ _ (RC5_cycle_emits addr cmd (RC5_toggle s))).
  cbn [log polls RC5_toggle trace].
  destruct (first_release pins (polls s) fuel) as [n|]; [|reflexivity].
  unfold bind, get_RC5_toggle, set_RC5_toggle. cbn [polls RC5_toggle trace].
  rewrite <- app_assoc. reflexivity.
Qed.

Lemma addr_bits_shift : forall a k n from,
  map (fun j => Z.testbit (Z.shiftr a (Z.of_nat k)) (Z.of_nat j)) (seq from n)
  = addr_bits (from + k) n a.
Proof.
  intros a k n. unfold addr_bits.
  induction n as [|n IH]; intros from; [reflexivity|].
  cbn [seq map]. rewrite Z.shiftr_spec by lia. rewrite (IH (S from)).
  rewrite Nat2Z.inj_add. reflexivity.
Qed.

Lemma SON_address_emits : forall addr bits,
  emits (if bits =? 12 then SON_sendByte addr 5
         else if bits =? 15 then SON_sendByte addr 8
         else if bits =? 20
              then SON_sendByte addr 8 ;; SON_sendByte (Z.shiftr addr 8) 5
         else ret tt)
        (flat_map SON_bit (SON_address addr bits)).
Proof.
  intros addr bits. unfold SON_address.
  destruct (bits =? 12); [|destruct (bits =? 15); [|destruct (bits =? 20)]].
  - eapply emits_eq; [apply SON_sendByte_emits; lia|].
    change (Z.to_nat 5) with 5%nat. rewrite bits_lsb_u8 by lia. reflexivity.
  - eapply emits_eq; [apply SON_sendByte_emits; lia|].
    change (Z.to_nat 8) with 8%nat. rewrite bits_lsb_u8 by lia. reflexivity.
  - eapply emits_eq;
      [apply emits_bind; apply SON_sendByte_emits; lia|].
    change (Z.to_nat 8) with 8%nat. change (Z.to_nat 5) with 5%nat.
    rewrite !bits_lsb_u8 by lia. rewrite flat_map_app. do 2 f_equal.
    apply (addr_bits_shift addr 8 5 0).
  - apply emits_ret.
Qed.

Lemma SON_cycle_emits : forall addr cmd bits,
  emits (SON_pass addr cmd bits) (SON_cycle addr cmd bits).
Proof.
  intros addr cmd bits. unfold SON_pass. eapply emits_eq.
  - apply emits_bind; [apply emits_burst_space|].
    apply emits_bind; [apply SON_sendByte_emits; lia|].
    apply emits_bind; [apply SON_address_emits | apply emits_emit].
  - change (Z.to_nat 7) with 7%nat. rewrite bits_lsb_u8 by lia.
    unfold SON_cycle, SON_telegram. rewrite <- !app_assoc. reflexivity.
Qed.

Lemma SON_sendCode_spec : forall fuel addr cmd bits s,
  SON_sendCode pins fuel addr cmd bits s =
  match first_release pins (polls s) fuel with
  | Some n =>
      Some (tt, mkMachine (RC5_toggle s) (polls s + S n)
                  (trace s ++ carrier SON_FREQ
                   :: polled_after (SON_cycle addr cmd bits)
                                   (responses pins (polls s) n)))
  | None => None
  end.
Proof.
  intros fuel addr cmd bits s. unfold SON_sendCode.
  rewrite (bind_emits _ _ _ _ (emits_PWM_set SON_FREQ)).
  rewrite (do_while_spec _ _ (SON_cycle_emits addr cmd bits)).
  cbn [log polls RC5_toggle trace].
  destruct (first_release pins (polls s) fuel) as [n|]; [|reflexivity].
  rewrite <- app_assoc. reflexivity.
Qed.

(** Every entry point, for every bound on its key loop: it returns
    exactly when a released read is within the bound. *)
Lemma run_call_spec : forall fuel c s,
  well_typed c ->
  run_call pins fuel c s =
  match first_release pins (polls s) fuel with
  | Some n =>
      Some (tt, mkMachine
                  (if is_RC5 c then u8 (Z.lxor (RC5_toggle s) 1)
                   else RC5_toggle s)
                  (polls s + S n)
                  (trace s ++ call_trace c (RC5_toggle s)
                                (responses pins (polls s) n)))
  | None => None
  end.
Proof.
  intros fuel [addr cmd|addr cmd|addr cmd|addr cmd bits] s Hc;
    cbn [run_call is_RC5 call_trace well_typed] in *.
  - apply NEC_sendCode_spec; tauto.
  - apply SAM_sendCode_spec; tauto.
  - apply RC5_sendCode_spec.
  - apply SON_sendCode_spec.
Qed.

Lemma run_call_held : forall fuel c s n,
  well_typed c -> held pins (polls s) n = true -> (n < fuel)%nat ->
  run_call pins fuel c s =
  Some (tt, mkMachine
              (if is_RC5 c then u8 (Z.lxor (RC5_toggle s) 1) else RC5_toggle s)
              (polls s + S n)
              (trace s ++ call_trace c (RC5_toggle s)
                            (responses pins (polls s) n))).
Proof.
  intros fuel c s n Hc Hh Hf. rewrite (run_call_spec fuel c s Hc).
  destruct (first_release_held fuel (polls s) n) as [_ H].
  rewrite (H (conj Hh Hf)). reflexivity.
Qed.

(** [RC5_toggle] is 0 or 1 in every state the program reaches. *)
Lemma reachable_toggle : forall s,
  reachable pins s -> RC5_toggle s = 0 \/ RC5_toggle s = 1.
Proof.
  induction 1 as [|fuel c s s' Hr IH Hc Hrun].
  - left. reflexivity.
  - rewrite (run_call_spec fuel c s Hc) in Hrun.
    destruct (first_release pins (polls s) fuel) as [n|]; [|discriminate].
    injection Hrun as <-. cbn [RC5_toggle].
    destruct (is_RC5 c); [|exact IH].
    destruct IH as [-> | ->]; [right | left]; reflexivity.
Qed.

End Runs.

(** * The claims *)

Lemma held_first_release : forall pins fuel p n,
  held pins p n = true -> (n < fuel)%nat -> first_release pins p fuel = Some n.
Proof. intros pins fuel p n Hh Hf. apply first_release_held. split; assumption. Qed.

(** ** NEC *)

(** The bytes of the specification's examples. *)
Example NEC_bytes_standard : NEC_bytes 0x04 0x08 = [0x04; 0xFB; 0x08; 0xF7].
Proof. reflexivity. Qed.

Example NEC_bytes_extended : NEC_bytes 0x1234 0x08 = [0x34; 0x12; 0x08; 0xF7].
Proof. reflexivity. Qed.

(** C1.  For every 16-bit address and 8-bit command, when the keys are
    read as held [n] times and then as released, [NEC_sendCode] returns
    having done exactly this: set the 38 kHz carrier; one telegram, made of
    the start frame (9000 us burst, 4500 us space), the four bytes
    [addr, ~addr, cmd, ~cmd] for [addr <= 0xFF] or
    [low addr, high addr, cmd, ~cmd] for [addr > 0xFF], every byte least
    significant bit first, and one end-marker burst; then, after each of
    the [n] reads that found a key held, one repeat cycle: 40 ms wait,
    repeat frame (9000 us burst, 2250 us space, end burst), 56 ms wait.
    [inv8 b] is the byte whose bits are the negated bits of [b]. *)
Theorem NEC_sendCode_telegram : forall pins fuel addr cmd s n,
  0 <= addr < 65536 -> 0 <= cmd < 256 ->
  held pins (polls s) n = true -> (n < fuel)%nat ->
  NEC_sendCode pins fuel addr cmd s =
    Some (tt, mkMachine (RC5_toggle s) (polls s + S n)
      (trace s
       ++ carrier NEC_FREQ
       :: (burst_space 9000 4500
           ++ flat_map (fun b => flat_map NEC_bit (bits_lsb 8 b))
                (if addr <=? 0xFF then [addr; inv8 addr; cmd; inv8 cmd]
                 else [addr mod 256; addr / 256; cmd; inv8 cmd])
           ++ NEC_mark)
       ++ flat_map (fun k => EvKey k ::
                      [EvDlyMs 40] ++ (burst_space 9000 2250 ++ NEC_mark)
                      ++ [EvDlyMs 56])
            (responses pins (polls s) n)
       ++ [EvKey 0]))
  /\ (forall b j, 0 <= b < 256 -> 0 <= j < 8 ->
        Z.testbit (inv8 b) j = negb (Z.testbit b j)).
Proof.
  intros pins fuel addr cmd s n Ha Hc Hh Hf. split; [|apply inv8_testbit].
  rewrite (NEC_sendCode_spec pins fuel addr cmd s Ha Hc).
  rewrite (held_first_release pins fuel (polls s) n Hh Hf). reflexivity.
Qed.

Lemma NEC_sendCode_telegram_witness :
  exists s', NEC_sendCode (press PIN_KEY1 2) 3 0x04 0x08 reset = Some (tt, s')
             /\ polls s' = 3%nat.
Proof.
  eexists. split.
  - apply (NEC_sendCode_telegram (press PIN_KEY1 2) 3 0x04 0x08 reset 2);
      [lia | lia | reflexivity | lia].
  - reflexivity.
Defined.

(** ** SAMSUNG *)

Example SAM_bytes_example : SAM_bytes 0x07 0x02 = [0x07; 0x07; 0x02; 0xFD].
Proof. reflexivity. Qed.

(** C4.  For every 8-bit address and 8-bit command, when the keys are read
    as held [n] times and then as released, [SAM_sendCode] returns having
    set the 38 kHz carrier and sent [n + 1] times the whole telegram, each
    followed by the 44 ms pause and then by one read of the keys: start
    frame (4500 us burst, 4500 us space), the bytes [addr, addr, cmd, ~cmd]
    in the NEC bit timing, least significant bit first, and one end-marker
    burst. *)
Theorem SAM_sendCode_telegram : forall pins fuel addr cmd s n,
  0 <= addr < 256 -> 0 <= cmd < 256 ->
  held pins (polls s) n = true -> (n < fuel)%nat ->
  SAM_sendCode pins fuel addr cmd s =
    Some (tt, mkMachine (RC5_toggle s) (polls s + S n)
      (trace s
       ++ carrier NEC_FREQ
       :: flat_map (fun k =>
             ((burst_space 4500 4500
               ++ flat_map (fun b => flat_map NEC_bit (bits_lsb 8 b))
                    [addr; addr; cmd; inv8 cmd]
               ++ NEC_mark)
              ++ [EvDlyMs 44])
             ++ [EvKey k])
            (responses pins (polls s) n ++ [0])))
  /\ (forall j, 0 <= j < 8 -> Z.testbit (inv8 cmd) j = negb (Z.testbit cmd j)).
Proof.
  intros pins fuel addr cmd s n Ha Hc Hh Hf.
  split; [|intros j Hj; apply inv8_testbit; assumption].
  rewrite (SAM_sendCode_spec pins fuel addr cmd s Ha Hc).
  rewrite (held_first_release pins fuel (polls s) n Hh Hf). reflexivity.
Qed.

Lemma SAM_sendCode_telegram_witness :
  exists s', SAM_sendCode (press PIN_KEY4 1) 2 0x07 0x02 reset = Some (tt, s')
             /\ polls s' = 2%nat.
Proof.
  eexists. split.
  - apply (SAM_sendCode_telegram (press PIN_KEY4 1) 2 0x07 0x02 reset 1);
      [lia | lia | reflexivity | lia].
  - reflexivity.
Defined.

(** ** SONY SIRC *)

(** C5.  For every address, command and variant value, when the keys are
    read as held [n] times and then as released, [SON_sendCode] returns
    normally having set the 40 kHz carrier and sent [n + 1] telegrams, each
    followed by the 27 ms pause and one read of the keys.  Every telegram
    is the start frame, the 7 low command bits, least significant first,
    and the address bits, lowest first: bits 0..4 for variant 12, bits 0..7
    for variant 15, bits 0..7 and then bits 8..12 for variant 20, and none
    for any other variant value. *)
Theorem SON_sendCode_telegram : forall pins fuel addr cmd bits s n,
  held pins (polls s) n = true -> (n < fuel)%nat ->
  SON_sendCode pins fuel addr cmd bits s =
    Some (tt, mkMachine (RC5_toggle s) (polls s + S n)
      (trace s
       ++ carrier SON_FREQ
       :: flat_map (fun k =>
             ((burst_space 2400 579
               ++ flat_map SON_bit (bits_lsb 7 cmd)
               ++ flat_map SON_bit (SON_address addr bits))
              ++ [EvDlyMs 27])
             ++ [EvKey k])
            (responses pins (polls s) n ++ [0])))
  /\ length (bits_lsb 7 cmd) = 7%nat
  /\ SON_address addr 12 = map (Z.testbit addr) [0; 1; 2; 3; 4]
  /\ SON_address addr 15 = map (Z.testbit addr) [0; 1; 2; 3; 4; 5; 6; 7]
  /\ SON_address addr 20 =
       map (Z.testbit addr) [0; 1; 2; 3; 4; 5; 6; 7]
       ++ map (Z.testbit addr) [8; 9; 10; 11; 12]
  /\ (bits <> 12 -> bits <> 15 -> bits <> 20 -> SON_address addr bits = []).
Proof.
  intros pins fuel addr cmd bits s n Hh Hf. repeat split.
  - rewrite (SON_sendCode_spec pins fuel addr cmd bits s).
    rewrite (held_first_release pins fuel (polls s) n Hh Hf). reflexivity.
  - intros H12 H15 H20. unfold SON_address.
    apply Z.eqb_neq in H12, H15, H20. rewrite H12, H15, H20. reflexivity.
Qed.

Lemma SON_sendCode_telegram_witness :
  exists s', SON_sendCode (press PIN_KEY3 1) 2 0x01 0x15 12 reset = Some (tt, s')
             /\ polls s' = 2%nat.
Proof.
  eexists. split.
  - apply (SON_sendCode_telegram (press PIN_KEY3 1) 2 0x01 0x15 12 reset 1);
      [reflexivity | lia].
  - reflexivity.
Defined.

(** ** RC-5 *)

(** The message of the specification's example: address 0, command 0x0B,
    toggle 0. *)
Example RC5_fields_example :
  bits_msb 14 (RC5_message 0 0x0B 0)
  = [true; true; false;
     false; false; false; false; false;
     false; false; true; false; true; true].
Proof. reflexivity. Qed.

(** C2, as stated, fails.  The two half-bit delays are not equal: both
    [RC5_bit0Pulse] and [RC5_bit1Pulse] request 880 us for the first half
    of the bit and 871 us for the second, and 871 us is more than 2% below
    the nominal 889 us. *)
Lemma RC5_half_bits_unequal :
  RC5_bit0Pulse reset
    = Some (tt, log [EvOn; EvDlyUs 880; EvOff; EvDlyUs 871] reset)
  /\ RC5_bit1Pulse reset
     = Some (tt, log [EvOff; EvDlyUs 880; EvOn; EvDlyUs 871] reset)
  /\ half_bit_delays (RC5_bit false) = Some (880, 871)
  /\ half_bit_delays (RC5_bit true) = Some (880, 871)
  /\ 880 <> 871
  /\ within 20 889 871 = false.
Proof. repeat split; try (vm_compute; reflexivity). discriminate. Qed.

(** C2, amended.  For every 5-bit address, 7-bit command and value of
    [RC5_toggle], when the keys are read as held [n] times and then as
    released, [RC5_sendCode] returns having set the 36 kHz carrier and sent
    [n + 1] times the 14 bits of the message, most significant first:
    start bit 1, the inverse of command bit 6, the toggle bit, address bits
    4..0, command bits 5..0; after the 14th bit the carrier is switched
    off, then come the 89 ms pause and one read of the keys.  A 0 bit is
    carrier on then carrier off, a 1 bit is carrier off then carrier on;
    for both bit values the first half-bit delay requested is 880 us and
    the second 871 us. *)
Theorem RC5_sendCode_telegram : forall pins fuel addr cmd s n,
  0 <= addr < 32 -> 0 <= cmd < 128 ->
  held pins (polls s) n = true -> (n < fuel)%nat ->
  RC5_sendCode pins fuel addr cmd s =
    Some (tt, mkMachine (u8 (Z.lxor (RC5_toggle s) 1)) (polls s + S n)
      (trace s
       ++ carrier RC5_FREQ
       :: flat_map (fun k =>
             ((flat_map RC5_bit
                 ([true; negb (Z.testbit cmd 6); negb (RC5_toggle s =? 0)]
                  ++ map (Z.testbit addr) [4; 3; 2; 1; 0]
                  ++ map (Z.testbit cmd) [5; 4; 3; 2; 1; 0])
               ++ [EvOff])
              ++ [EvDlyMs 89])
             ++ [EvKey k])
            (responses pins (polls s) n ++ [0])))
  /\ RC5_bit false = [EvOn; EvDlyUs 880; EvOff; EvDlyUs 871]
  /\ RC5_bit true = [EvOff; EvDlyUs 880; EvOn; EvDlyUs 871].
Proof.
  intros pins fuel addr cmd s n Ha Hc Hh Hf. split.
  - rewrite (RC5_sendCode_spec pins fuel addr cmd s).
    rewrite (held_first_release pins fuel (polls s) n Hh Hf).
    rewrite (RC5_raw_cycle_fields addr cmd (RC5_toggle s) Ha). reflexivity.
  - split; reflexivity.
Qed.

Lemma RC5_sendCode_telegram_witness :
  exists s', RC5_sendCode (press PIN_KEY2 1) 2 0x00 0x0B reset = Some (tt, s')
             /\ RC5_toggle s' = 1.
Proof.
  eexists. split.
  - apply (RC5_sendCode_telegram (press PIN_KEY2 1) 2 0x00 0x0B reset 1);
      [lia | lia | reflexivity | lia].
  - reflexivity.
Defined.

Lemma emitted_app : forall s t p w,
  emitted s (mkMachine t p (trace s ++ w)) = w.
Proof.
  intros s t p w. unfold emitted. cbn [trace].
  induction (trace s) as [|e l IH]; [reflexivity | exact IH].
Qed.

(** C3.  In every state the program reaches: a call of [RC5_sendCode] with
    the keys held for [n] reads sends [n + 1] telegrams that all carry the
    toggle bit of the state the call started in, and returns with
    [RC5_toggle] flipped once; the next call of [RC5_sendCode] sends
    telegrams with the inverse toggle bit; and a call of [NEC_sendCode],
    [SAM_sendCode] or [SON_sendCode] returns with [RC5_toggle] as it found
    it. *)
Theorem RC5_toggle_discipline : forall pins s,
  reachable pins s ->
  (forall fuel addr cmd n,
     0 <= addr < 32 -> 0 <= cmd < 128 ->
     held pins (polls s) n = true -> (n < fuel)%nat ->
     exists s1,
       RC5_sendCode pins fuel addr cmd s = Some (tt, s1)
       /\ emitted s s1 =
            carrier RC5_FREQ
            :: flat_map (fun k => RC5_cycle addr cmd (toggle_bit s) ++ [EvKey k])
                 (responses pins (polls s) n ++ [0])
       /\ nth 2 (RC5_fields addr cmd (toggle_bit s)) false = toggle_bit s
       /\ RC5_toggle s1 = 1 - RC5_toggle s
       /\ toggle_bit s1 = negb (toggle_bit s)
       /\ forall fuel' addr' cmd' n',
            0 <= addr' < 32 -> 0 <= cmd' < 128 ->
            held pins (polls s1) n' = true -> (n' < fuel')%nat ->
            exists s2,
              RC5_sendCode pins fuel' addr' cmd' s1 = Some (tt, s2)
              /\ emitted s1 s2 =
                   carrier RC5_FREQ
                   :: flat_map (fun k => RC5_cycle addr' cmd' (negb (toggle_bit s))
                                         ++ [EvKey k])
                        (responses pins (polls s1) n' ++ [0])
              /\ RC5_toggle s2 = RC5_toggle s)
  /\ (forall fuel c s',
        well_typed c -> is_RC5 c = false ->
        run_call pins fuel c s = Some (tt, s') ->
        RC5_toggle s' = RC5_toggle s).
Proof.
  intros pins s Hr.
  assert (Hrun : forall s0 fuel addr cmd n,
             0 <= addr < 32 -> held pins (polls s0) n = true -> (n < fuel)%nat ->
             RC5_sendCode pins fuel addr cmd s0 =
             Some (tt, mkMachine (u8 (Z.lxor (RC5_toggle s0) 1)) (polls s0 + S n)
                     (trace s0 ++ carrier RC5_FREQ ::
                        polled_after (RC5_cycle addr cmd (toggle_bit s0))
                          (responses pins (polls s0) n)))).
  { intros s0 fuel addr cmd n Ha Hh Hf.
    rewrite (RC5_sendCode_spec pins fuel addr cmd s0).
    rewrite (held_first_release pins fuel (polls s0) n Hh Hf).
    rewrite (RC5_raw_cycle_fields addr cmd (RC5_toggle s0) Ha). reflexivity. }
  pose proof (reachable_toggle pins s Hr) as Ht.
  split.
  - intros fuel addr cmd n Ha Hc Hh Hf.
    eexists. split; [apply (Hrun s fuel addr cmd n Ha Hh Hf)|].
    split; [apply emitted_app|]. split; [reflexivity|].
    split; [cbn [RC5_toggle]; destruct Ht as [-> | ->]; reflexivity|].
    split; [unfold toggle_bit; cbn [RC5_toggle]; destruct Ht as [-> | ->]; reflexivity|].
    intros fuel' addr' cmd' n' Ha' Hc' Hh' Hf'.
    eexists. split; [apply (Hrun _ fuel' addr' cmd' n' Ha' Hh' Hf')|].
    split.
    + rewrite emitted_app. unfold toggle_bit. cbn [RC5_toggle].
      destruct Ht as [-> | ->]; reflexivity.
    + cbn [RC5_toggle]. destruct Ht as [-> | ->]; reflexivity.
  - intros fuel c s' Hc Hn Hs.
    rewrite (run_call_spec pins fuel c s Hc), Hn in Hs.
    destruct (first_release pins (polls s) fuel); [|discriminate].
    injection Hs as <-. reflexivity.
Qed.

Lemma RC5_toggle_discipline_witness :
  exists s1, RC5_sendCode (press PIN_KEY2 1) 2 0x00 0x0B reset = Some (tt, s1)
             /\ RC5_toggle s1 = 1 - RC5_toggle reset.
Proof.
  destruct (RC5_toggle_discipline (press PIN_KEY2 1) reset
              (reach_reset (press PIN_KEY2 1))) as [H _].
  destruct (H 2%nat 0x00 0x0B 1%nat ltac:(lia) ltac:(lia) eq_refl ltac:(lia))
    as [s1 [E1 [_ [_ [E2 _]]]]].
  exists s1. split; assumption.
Defined.

(** ** The hold query *)

Lemma KEY_scan_released : forall p,
  KEY_scan p = 0 <-> forall key, PIN_read p key = true.
Proof.
  intros p. unfold KEY_scan, PIN_read. split.
  - intros H key.
    destruct (p PIN_KEY1) eqn:E1, (p PIN_KEY2) eqn:E2, (p PIN_KEY3) eqn:E3,
      (p PIN_KEY4) eqn:E4, (p PIN_KEY5) eqn:E5; try discriminate H.
    destruct key; assumption.
  - intros H.
    rewrite (H PIN_KEY1), (H PIN_KEY2), (H PIN_KEY3), (H PIN_KEY4), (H PIN_KEY5).
    reflexivity.
Qed.

Lemma KEY_scan_pressed : forall p,
  KEY_scan p <> 0 <-> exists key, PIN_read p key = false.
Proof.
  intros p. split.
  - intros H. unfold KEY_scan, PIN_read in *.
    destruct (p PIN_KEY1) eqn:E1; [|exists PIN_KEY1; exact E1].
    destruct (p PIN_KEY2) eqn:E2; [|exists PIN_KEY2; exact E2].
    destruct (p PIN_KEY3) eqn:E3; [|exists PIN_KEY3; exact E3].
    destruct (p PIN_KEY4) eqn:E4; [|exists PIN_KEY4; exact E4].
    destruct (p PIN_KEY5) eqn:E5; [|exists PIN_KEY5; exact E5].
    exfalso. apply H. reflexivity.
  - intros [key Hk] H0. rewrite (proj1 (KEY_scan_released p) H0 key) in Hk.
    discriminate.
Qed.

Lemma held_spec : forall pins n p,
  held pins p n = true ->
  (forall i, (i < n)%nat -> KEY_scan (pins (p + i)%nat) <> 0)
  /\ KEY_scan (pins (p + n)%nat) = 0.
Proof.
  intros pins. induction n as [|n IH]; intros p H.
  - rewrite held_0 in H. rewrite Nat.add_0_r. split; [lia | apply Z.eqb_eq, H].
  - rewrite held_S in H. apply andb_prop in H. destruct H as [H1 H2].
    destruct (IH (S p) H2) as [IHa IHb]. split.
    + intros [|i] Hi.
      * rewrite Nat.add_0_r. apply Z.eqb_neq.
        destruct (KEY_scan (pins p) =? 0); [discriminate | reflexivity].
      * rewrite Nat.add_succ_r. apply (IHa i). lia.
    + rewrite Nat.add_succ_r. exact IHb.
Qed.

(** C6, as stated, fails.  Key 1 starts [NEC_sendCode(0x04,0x08)] from the
    main loop; at the first read of the repeat loop key 1 is up and key 2
    is down: [KEY_read] returns 2, and a repeat cycle is sent although the
    button that triggered the telegram is no longer asserted. *)
Lemma hold_query_ignores_origin :
  main_turn swap_keys 3 reset =
    Some (tt, mkMachine 0 3
      ([EvStandby; EvDlyMs 1; EvKey 1]
       ++ carrier NEC_FREQ :: NEC_telegram 0x04 0x08
       ++ [EvKey 2] ++ NEC_repeat_cycle
       ++ [EvKey 0]))
  /\ origin_asserted PIN_KEY1 (swap_keys 1) = false.
Proof. split; vm_compute; reflexivity. Qed.

(** C6, amended.  In every call of an encoder, when the keys are read as
    held [n] times and then as released, the call returns after exactly
    [n + 1] reads, made only between the frames ([call_trace]): the NEC
    encoder sends a repeat cycle after each of the first [n] reads, the
    other three send their telegram before each of the [n + 1] reads.  A
    read counts as held when any of the five key pins is low, whichever
    key started the call, and as released when all five are high. *)
Theorem repeat_while_any_key : forall pins fuel c s n,
  well_typed c ->
  held pins (polls s) n = true -> (n < fuel)%nat ->
  exists s',
    run_call pins fuel c s = Some (tt, s')
    /\ emitted s s' = call_trace c (RC5_toggle s) (responses pins (polls s) n)
    /\ polls s' = (polls s + S n)%nat
    /\ (forall i, (i < n)%nat ->
          exists key, PIN_read (pins (polls s + i)%nat) key = false)
    /\ (forall key, PIN_read (pins (polls s + n)%nat) key = true).
Proof.
  intros pins fuel c s n Hc Hh Hf.
  eexists. split; [apply (run_call_held pins fuel c s n Hc Hh Hf)|].
  split; [apply emitted_app|]. split; [reflexivity|].
  destruct (held_spec pins n (polls s) Hh) as [Ha Hb]. split.
  - intros i Hi. apply KEY_scan_pressed, Ha, Hi.
  - apply KEY_scan_released, Hb.
Qed.

Lemma repeat_while_any_key_witness :
  exists s',
    run_call swap_keys 3 (CallNEC 0x04 0x08) (mkMachine 0 1 []) = Some (tt, s')
    /\ polls s' = 3%nat.
Proof.
  destruct (repeat_while_any_key swap_keys 3 (CallNEC 0x04 0x08)
              (mkMachine 0 1 []) 1
              ltac:(cbn; lia) eq_refl ltac:(lia))
    as [s' [E [_ [P _]]]].
  exists s'. split; assumption.
Defined.

(** ** Return on release *)

Ltac quiet_events :=
  unfold quiet;
  repeat match goal with
         | |- Forall _ [] => apply Forall_nil
         | |- Forall _ (_ :: _) => apply Forall_cons; [discriminate|]
         | |- Forall _ (_ ++ _) => apply Forall_app; split
         end.

Lemma quiet_flat_map : forall (A : Type) (f : A -> list Event) l,
  (forall x, quiet (f x)) -> quiet (flat_map f l).
Proof.
  intros A f l H. apply Forall_flat_map, Forall_forall. intros x _. apply H.
Qed.

Lemma quiet_burst_space : forall b s, quiet (burst_space b s).
Proof. intros b s. unfold burst_space. quiet_events. Qed.

Lemma quiet_NEC_byte : forall b, quiet (NEC_byte b).
Proof.
  intros b. apply quiet_flat_map. intros x. unfold NEC_bit.
  quiet_events; [apply quiet_burst_space | destruct x; quiet_events].
Qed.

Lemma quiet_NEC_telegram : forall addr cmd, quiet (NEC_telegram addr cmd).
Proof.
  intros addr cmd. unfold NEC_telegram. quiet_events.
  - apply quiet_burst_space.
  - apply quiet_flat_map, quiet_NEC_byte.
  - apply quiet_burst_space.
Qed.

Lemma quiet_SAM_cycle : forall addr cmd, quiet (SAM_cycle addr cmd).
Proof.
  intros addr cmd. unfold SAM_cycle, SAM_telegram. quiet_events.
  - apply quiet_burst_space.
  - apply quiet_flat_map, quiet_NEC_byte.
  - apply quiet_burst_space.
Qed.

Lemma quiet_RC5_raw_cycle : forall addr cmd t, quiet (RC5_raw_cycle addr cmd t).
Proof.
  intros addr cmd t. unfold RC5_raw_cycle. quiet_events.
  apply quiet_flat_map. intros [|]; unfold RC5_bit; quiet_events.
Qed.

Lemma quiet_SON_bits : forall l, quiet (flat_map SON_bit l).
Proof.
  intros l. apply quiet_flat_map. intros b. apply quiet_burst_space.
Qed.

Lemma quiet_SON_cycle : forall addr cmd bits, quiet (SON_cycle addr cmd bits).
Proof.
  intros addr cmd bits. unfold SON_cycle, SON_telegram. quiet_events.
  - apply quiet_burst_space.
  - apply quiet_SON_bits.
  - apply quiet_SON_bits.
Qed.

Lemma quiet_NEC_repeat_cycle : quiet NEC_repeat_cycle.
Proof.
  unfold NEC_repeat_cycle, NEC_repeat_frame. quiet_events; apply quiet_burst_space.
Qed.

Lemma quiet_polled_before : forall w ks,
  quiet w -> Forall (fun k => k <> 0) ks ->
  quiet (flat_map (fun k => EvKey k :: w) ks).
Proof.
  intros w ks Hw Hk. induction Hk as [|k ks Hk0 _ IH]; cbn [flat_map].
  - constructor.
  - constructor; [congruence|]. apply Forall_app. split; assumption.
Qed.

Lemma polled_after_last : forall w ks,
  polled_after w ks = (flat_map (fun k => w ++ [EvKey k]) ks ++ w) ++ [EvKey 0].
Proof.
  intros w ks. unfold polled_after. rewrite flat_map_app. cbn [flat_map].
  rewrite app_nil_r, app_assoc. reflexivity.
Qed.

Lemma quiet_polled_after : forall w ks,
  quiet w -> Forall (fun k => k <> 0) ks ->
  quiet (flat_map (fun k => w ++ [EvKey k]) ks ++ w).
Proof.
  intros w ks Hw Hk. apply Forall_app. split; [|exact Hw].
  induction Hk as [|k ks Hk0 _ IH]; cbn [flat_map].
  - constructor.
  - apply Forall_app. split; [|exact IH].
    apply Forall_app. split; [exact Hw|]. constructor; [congruence | constructor].
Qed.

(** The released read is the last event of every call. *)
Lemma call_trace_last : forall c t ks,
  Forall (fun k => k <> 0) ks ->
  exists w, call_trace c t ks = w ++ [EvKey 0] /\ quiet w.
Proof.
  intros [addr cmd|addr cmd|addr cmd|addr cmd bits] t ks Hk; cbn [call_trace].
  - exists (carrier NEC_FREQ :: NEC_telegram addr cmd
            ++ flat_map (fun k => EvKey k :: NEC_repeat_cycle) ks).
    split.
    + unfold polled_before. cbn [app]. rewrite <- app_assoc. reflexivity.
    + constructor; [discriminate|]. apply Forall_app. split.
      * apply quiet_NEC_telegram.
      * apply quiet_polled_before; [apply quiet_NEC_repeat_cycle | exact Hk].
  - exists (carrier NEC_FREQ ::
            flat_map (fun k => SAM_cycle addr cmd ++ [EvKey k]) ks ++ SAM_cycle addr cmd).
    split; [rewrite polled_after_last; reflexivity|].
    constructor; [discriminate|].
    apply quiet_polled_after; [apply quiet_SAM_cycle | exact Hk].
  - exists (carrier RC5_FREQ ::
            flat_map (fun k => RC5_raw_cycle addr cmd t ++ [EvKey k]) ks
            ++ RC5_raw_cycle addr cmd t).
    split; [rewrite polled_after_last; reflexivity|].
    constructor; [discriminate|].
    apply quiet_polled_after; [apply quiet_RC5_raw_cycle | exact Hk].
  - exists (carrier SON_FREQ ::
            flat_map (fun k => SON_cycle addr cmd bits ++ [EvKey k]) ks
            ++ SON_cycle addr cmd bits).
    split; [rewrite polled_after_last; reflexivity|].
    constructor; [discriminate|].
    apply quiet_polled_after; [apply quiet_SON_cycle | exact Hk].
Qed.

(** C8.  For every call of an encoder and every sequence of key reads in
    which some read ahead finds the keys released, the call returns for
    every bound on its loop above the index [n] of the first such read, it
    has then read the keys [n + 1] times, and the read that found the keys
    released is the last event of the call: nothing is sent after it. *)
Theorem release_ends_call : forall pins c s m,
  well_typed c ->
  KEY_scan (pins (polls s + m)%nat) = 0 ->
  exists n w,
    (n <= m)%nat
    /\ Forall (fun e => e <> EvKey 0) w
    /\ forall fuel, (n < fuel)%nat ->
         exists s',
           run_call pins fuel c s = Some (tt, s')
           /\ trace s' = trace s ++ w ++ [EvKey 0]
           /\ polls s' = (polls s + S n)%nat.
Proof.
  intros pins c s m Hc Hm.
  destruct (release_ahead pins m (polls s) Hm) as [n [Hn Hh]].
  destruct (call_trace_last c (RC5_toggle s) (responses pins (polls s) n)
              (held_responses pins n (polls s) Hh)) as [w [Ew Hq]].
  exists n, w. split; [exact Hn|]. split; [exact Hq|].
  intros fuel Hf. eexists.
  split; [apply (run_call_held pins fuel c s n Hc Hh Hf)|].
  cbn [trace polls]. rewrite Ew. split; reflexivity.
Qed.

Lemma release_ends_call_witness :
  exists n w,
    (n <= 5)%nat
    /\ Forall (fun e => e <> EvKey 0) w
    /\ forall fuel, (n < fuel)%nat ->
         exists s',
           run_call (press PIN_KEY3 2) fuel (CallSON 0x01 0x15 12) reset = Some (tt, s')
           /\ trace s' = trace reset ++ w ++ [EvKey 0]
           /\ polls s' = (polls reset + S n)%nat.
Proof.
  apply (release_ends_call (press PIN_KEY3 2) (CallSON 0x01 0x15 12) reset 5).
  - cbn. lia.
  - reflexivity.
Defined.

(** ** Determinism *)

Lemma waveform_app : forall u v, waveform (u ++ v) = waveform u ++ waveform v.
Proof. intros u v. apply filter_app. Qed.

Lemma waveform_polled_before : forall w ks,
  waveform (polled_before w ks) = concat (repeat (waveform w) (length ks)).
Proof.
  intros w ks. unfold polled_before. rewrite waveform_app. cbn [waveform filter is_key negb].
  rewrite app_nil_r. induction ks as [|k ks IH]; [reflexivity|].
  cbn [flat_map length repeat concat]. rewrite <- IH.
  change (EvKey k :: w ++ flat_map (fun k0 => EvKey k0 :: w) ks)
    with ([EvKey k] ++ (w ++ flat_map (fun k0 => EvKey k0 :: w) ks)).
  rewrite !waveform_app. reflexivity.
Qed.

Lemma waveform_polled_after : forall w ks,
  waveform (polled_after w ks) = concat (repeat (waveform w) (S (length ks))).
Proof.
  intros w ks. unfold polled_after.
  replace (S (length ks)) with (length (ks ++ [0]))
    by (rewrite length_app, Nat.add_1_r; reflexivity).
  induction (ks ++ [0]) as [|k l IH]; [reflexivity|].
  cbn [flat_map length repeat concat]. rewrite <- IH, !waveform_app.
  cbn [waveform filter is_key negb]. rewrite app_nil_r. reflexivity.
Qed.

(** The waveform of a call depends on the key reads only through their
    number. *)
Lemma waveform_call_trace : forall c t ks1 ks2,
  length ks1 = length ks2 ->
  waveform (call_trace c t ks1) = waveform (call_trace c t ks2).
Proof.
  intros [addr cmd|addr cmd|addr cmd|addr cmd bits] t ks1 ks2 Hl; cbn [call_trace].
  - change (carrier NEC_FREQ :: ?x) with ([carrier NEC_FREQ] ++ x).
    rewrite !waveform_app, !waveform_polled_before, Hl. reflexivity.
  - change (carrier NEC_FREQ :: ?x) with ([carrier NEC_FREQ] ++ x).
    rewrite !waveform_app, !waveform_polled_after, Hl. reflexivity.
  - change (carrier RC5_FREQ :: ?x) with ([carrier RC5_FREQ] ++ x).
    rewrite !waveform_app, !waveform_polled_after, Hl. reflexivity.
  - change (carrier SON_FREQ :: ?x) with ([carrier SON_FREQ] ++ x).
    rewrite !waveform_app, !waveform_polled_after, Hl. reflexivity.
Qed.

Lemma call_trace_toggle : forall c t1 t2 ks,
  (is_RC5 c = true -> t1 = t2) -> call_trace c t1 ks = call_trace c t2 ks.
Proof.
  intros [addr cmd|addr cmd|addr cmd|addr cmd bits] t1 t2 ks H; try reflexivity.
  rewrite (H eq_refl). reflexivity.
Qed.

Lemma held_agree : forall pins1 pins2 n p1 p2,
  (forall i, (KEY_scan (pins1 (p1 + i)%nat) =? 0)
             = (KEY_scan (pins2 (p2 + i)%nat) =? 0)) ->
  held pins1 p1 n = held pins2 p2 n.
Proof.
  intros pins1 pins2. induction n as [|n IH]; intros p1 p2 H.
  - rewrite !held_0. specialize (H O). rewrite !Nat.add_0_r in H. exact H.
  - rewrite !held_S. f_equal.
    + specialize (H O). rewrite !Nat.add_0_r in H. rewrite H. reflexivity.
    + apply IH. intros i. specialize (H (S i)).
      rewrite !Nat.add_succ_r in H. exact H.
Qed.

(** C9.  Two calls of the same encoder with the same arguments, started in
    any two states (for [RC5_sendCode]: with the same [RC5_toggle]), under
    key reads that agree, read for read, on whether a key is held, and
    with any two loop bounds under which both return, put the same
    waveform on the LED pin. *)
Theorem encoders_deterministic : forall pins1 pins2 fuel1 fuel2 c s1 s2 r1 r2,
  well_typed c ->
  (is_RC5 c = true -> RC5_toggle s1 = RC5_toggle s2) ->
  (forall i, (KEY_scan (pins1 (polls s1 + i)%nat) =? 0)
             = (KEY_scan (pins2 (polls s2 + i)%nat) =? 0)) ->
  run_call pins1 fuel1 c s1 = Some (tt, r1) ->
  run_call pins2 fuel2 c s2 = Some (tt, r2) ->
  waveform (emitted s1 r1) = waveform (emitted s2 r2).
Proof.
  intros pins1 pins2 fuel1 fuel2 c s1 s2 r1 r2 Hc Ht Hk H1 H2.
  rewrite (run_call_spec pins1 fuel1 c s1 Hc) in H1.
  rewrite (run_call_spec pins2 fuel2 c s2 Hc) in H2.
  destruct (first_release pins1 (polls s1) fuel1) as [n1|] eqn:E1; [|discriminate].
  destruct (first_release pins2 (polls s2) fuel2) as [n2|] eqn:E2; [|discriminate].
  apply first_release_held in E1, E2. destruct E1 as [E1 _], E2 as [E2 _].
  rewrite (held_agree pins1 pins2 n1 _ _ Hk) in E1.
  pose proof (held_unique pins2 n1 _ n2 E1 E2) as ->.
  injection H1 as <-. injection H2 as <-.
  rewrite !emitted_app, (call_trace_toggle c _ _ _ Ht).
  apply waveform_call_trace. rewrite !responses_length. reflexivity.
Qed.

Lemma encoders_deterministic_witness :
  exists r1 r2,
    run_call (press PIN_KEY1 1) 2 (CallRC5 0x00 0x0B) reset = Some (tt, r1)
    /\ run_call (press PIN_KEY2 1) 5 (CallRC5 0x00 0x0B) (mkMachine 0 0 [EvStandby])
       = Some (tt, r2)
    /\ waveform (emitted reset r1) = waveform (emitted (mkMachine 0 0 [EvStandby]) r2).
Proof.
  eexists. eexists. split; [vm_compute; reflexivity|].
  split; [vm_compute; reflexivity|].
  apply (encoders_deterministic (press PIN_KEY1 1) (press PIN_KEY2 1) 2 5
           (CallRC5 0x00 0x0B) reset (mkMachine 0 0 [EvStandby])).
  - cbn. lia.
  - reflexivity.
  - intros [|[|i]]; reflexivity.
  - vm_compute. reflexivity.
  - vm_compute. reflexivity.
Defined.

(** ** NEC bit timing *)

(** C7, as stated, fails.  Every bit of [NEC_sendByte(0)] is a 0 bit; the
    space requested for it is 543 us, which is 3.47% below the 562.5 us of
    the protocol: outside 2%. *)
Lemma NEC_zero_space_outside_2_percent :
  NEC_sendByte 0 reset = Some (tt, log (flat_map NEC_bit (repeat false 8)) reset)
  /\ durations false (NEC_bit false) = (552, 543)
  /\ within 20 (NEC_nominal_space false) (10 * 543) = false
  /\ NEC_bit_within 20 false = false.
Proof. repeat split; vm_compute; reflexivity. Qed.

(** C7, amended.  [NEC_sendByte] sends the 8 bits of its argument, least
    significant first, each as a burst and a space.  The burst requested is
    552 us for both bit values, within 2% of the nominal 562.5 us.  The
    space requested is 1668 us for a 1 bit, within 2% of the nominal
    1687.5 us, and 543 us for a 0 bit, within 3.5% of the nominal 562.5 us
    (not within 2%).  Only the space differs between the bit values. *)
Theorem NEC_bit_timing : forall value s b,
  NEC_sendByte value s
    = Some (tt, log (flat_map NEC_bit (bits_lsb 8 (u8 value))) s)
  /\ fst (durations false (NEC_bit b)) = 552
  /\ snd (durations false (NEC_bit b)) = (if b then 1668 else 543)
  /\ within 20 NEC_nominal_burst (10 * fst (durations false (NEC_bit b))) = true
  /\ within (if b then 20 else 35) (NEC_nominal_space b)
            (10 * snd (durations false (NEC_bit b))) = true
  /\ NEC_bit_within 35 b = true
  /\ snd (durations false (NEC_bit true)) <> snd (durations false (NEC_bit false)).
Proof.
  intros value s b. split; [apply NEC_sendByte_emits|].
  destruct b; repeat split; vm_compute; congruence.
Qed.

(** ** The bit count of [SON_sendByte] *)

Lemma bind_assoc : forall (m1 m2 m3 : M unit) s,
  ((m1 ;; m2) ;; m3) s = (m1 ;; m2 ;; m3) s.
Proof. intros. unfold bind. destruct (m1 s) as [[[] s1]|]; reflexivity. Qed.

Lemma bind_ext : forall (m k k' : M unit) s,
  (forall s', k s' = k' s') -> (m ;; k) s = (m ;; k') s.
Proof. intros m k k' s H. unfold bind. destruct (m s) as [[[] s1]|]; [apply H | reflexivity]. Qed.

(** One pass of the loop of [SON_sendCode] is the start pulse, the calls
    listed by [SON_calls] and the pause. *)
Lemma SON_pass_calls : forall addr cmd bits s,
  SON_pass addr cmd bits s
  = (SON_startPulse ;; SON_sendBytes (SON_calls addr cmd bits) ;; SON_repeatPause) s.
Proof.
  intros addr cmd bits s. unfold SON_pass, SON_calls.
  apply bind_ext. intros s1. cbn [SON_sendBytes]. rewrite bind_assoc.
  apply bind_ext. intros s2.
  destruct (bits =? 12); [|destruct (bits =? 15); [|destruct (bits =? 20)]];
    cbn [SON_sendBytes].
  - unfold bind. destruct (SON_sendByte addr 5 s2) as [[[] s3]|]; reflexivity.
  - unfold bind. destruct (SON_sendByte addr 8 s2) as [[[] s3]|]; reflexivity.
  - unfold bind. destruct (SON_sendByte addr 8 s2) as [[[] s3]|]; [|reflexivity].
    destruct (SON_sendByte (Z.shiftr addr 8) 5 s3) as [[[] s4]|]; reflexivity.
  - reflexivity.
Qed.

(** C10.  [SON_sendByte] sends exactly [number] bits for every [number]
    from 1 to 255, and 256 bits for [number = 0], the counter wrapping
    below zero before it is tested; one pass of the loop of [SON_sendCode]
    calls it with the counts 7 and then, by variant, 5, or 8, or 8 and 5,
    or not again: never with 0. *)
Theorem SON_sendByte_count :
  (forall value number s,
     1 <= number <= 255 ->
     SON_sendByte value number s
     = Some (tt, log (flat_map SON_bit (bits_lsb (Z.to_nat number) (u8 value))) s)
     /\ length (bits_lsb (Z.to_nat number) (u8 value)) = Z.to_nat number)
  /\ (forall value s,
        SON_sendByte value 0 s
        = Some (tt, log (flat_map SON_bit (bits_lsb 256 (u8 value))) s)
        /\ length (bits_lsb 256 (u8 value)) = 256%nat)
  /\ (forall addr cmd bits s,
        SON_pass addr cmd bits s
        = (SON_startPulse ;; SON_sendBytes (SON_calls addr cmd bits) ;;
           SON_repeatPause) s
        /\ Forall (fun c => snd c = 5 \/ snd c = 7 \/ snd c = 8)
                  (SON_calls addr cmd bits)).
Proof.
  split; [|split].
  - intros value number s Hn.
    split; [apply SON_sendByte_emits, Hn | apply bits_lsb_length].
  - intros value s. split; [apply SON_sendByte_0_emits | apply bits_lsb_length].
  - intros addr cmd bits s. split; [apply SON_pass_calls|].
    unfold SON_calls.
    destruct (bits =? 12); [|destruct (bits =? 15); [|destruct (bits =? 20)]];
      repeat constructor; cbn [snd]; tauto.
Qed.

Lemma SON_sendByte_count_witness :
  SON_sendByte 0x15 7 reset
  = Some (tt, log (flat_map SON_bit (bits_lsb (Z.to_nat 7) (u8 0x15))) reset).
Proof.
  apply (proj1 SON_sendByte_count 0x15 7 reset). lia.
Defined.

(** * Further properties of the program *)

(** ** [KEY_read] *)

Lemma KEY_scan_range : forall p, 0 <= KEY_scan p <= 5.
Proof.
  intros p. unfold KEY_scan.
  destruct (PIN_read p PIN_KEY1), (PIN_read p PIN_KEY2), (PIN_read p PIN_KEY3),
    (PIN_read p PIN_KEY4), (PIN_read p PIN_KEY5); cbn; lia.
Qed.

(** X1.  [KEY_read] is a priority encoder: it returns the number of key
    [k] exactly when the pin of [k] is low and the pins of all keys with a
    smaller number are high; with several keys down the lowest number
    wins. *)
Theorem KEY_scan_priority : forall p k,
  KEY_scan p = key_number k <->
  PIN_read p k = false
  /\ forall k', key_number k' < key_number k -> PIN_read p k' = true.
Proof.
  intros p k. unfold KEY_scan, PIN_read. split.
  - intros H.
    destruct (p PIN_KEY1) eqn:E1, (p PIN_KEY2) eqn:E2, (p PIN_KEY3) eqn:E3,
      (p PIN_KEY4) eqn:E4, (p PIN_KEY5) eqn:E5;
      destruct k; cbn in H; try discriminate H;
      (split; [assumption|]);
      intros k' Hk'; destruct k'; cbn in Hk'; try lia; assumption.
  - intros [Hk Hlow].
    destruct k; cbn [key_number] in *.
    + rewrite Hk. reflexivity.
    + rewrite (Hlow PIN_KEY1 ltac:(cbn; lia)), Hk. reflexivity.
    + rewrite (Hlow PIN_KEY1 ltac:(cbn; lia)), (Hlow PIN_KEY2 ltac:(cbn; lia)), Hk.
      reflexivity.
    + rewrite (Hlow PIN_KEY1 ltac:(cbn; lia)), (Hlow PIN_KEY2 ltac:(cbn; lia)),
        (Hlow PIN_KEY3 ltac:(cbn; lia)), Hk. reflexivity.
    + rewrite (Hlow PIN_KEY1 ltac:(cbn; lia)), (Hlow PIN_KEY2 ltac:(cbn; lia)),
        (Hlow PIN_KEY3 ltac:(cbn; lia)), (Hlow PIN_KEY4 ltac:(cbn; lia)), Hk.
      reflexivity.
Qed.

(** ** The main loop *)

(** One turn of the main loop, for every bound: standby, debounce, one
    read of the keys, then the call assigned to the key read, the 10 ms
    delay for key 5, or nothing. *)
Lemma main_turn_spec : forall pins fuel s,
  main_turn pins fuel s =
  let k := KEY_scan (pins (polls s)) in
  let s0 := mkMachine (RC5_toggle s) (S (polls s))
              (trace s ++ [EvStandby; EvDlyMs 1; EvKey k]) in
  match KEY_call k with
  | Some c => run_call pins fuel c s0
  | None => if k =? 5 then Some (tt, log [EvDlyMs 10] s0) else Some (tt, s0)
  end.
Proof.
  intros pins fuel s. unfold main_turn.
  rewrite (bind_emits _ _ _ _ (emits_emit EvStandby)).
  rewrite (bind_emits _ _ _ _ (emits_emit (EvDlyMs 1))).
  unfold bind at 1. unfold KEY_read at 1. cbv zeta.
  cbn [log polls RC5_toggle trace]. rewrite <- !app_assoc. cbn [app].
  pose proof (KEY_scan_range (pins (polls s))) as Hr.
  set (k := KEY_scan (pins (polls s))) in *. unfold KEY_call.
  destruct (Z.eqb_spec k 1); [reflexivity|].
  destruct (Z.eqb_spec k 2); [reflexivity|].
  destruct (Z.eqb_spec k 3); [reflexivity|].
  destruct (Z.eqb_spec k 4); [reflexivity|].
  destruct (Z.eqb_spec k 5); reflexivity.
Qed.

Lemma KEY_call_well_typed : forall k c, KEY_call k = Some c -> well_typed c.
Proof.
  intros k c. unfold KEY_call.
  destruct (k =? 1); [intros H; injection H as <-; cbn; lia|].
  destruct (k =? 2); [intros H; injection H as <-; cbn; lia|].
  destruct (k =? 3); [intros H; injection H as <-; cbn; lia|].
  destruct (k =? 4); [intros H; injection H as <-; cbn; lia|].
  discriminate.
Qed.

Lemma KEY_call_RC5 : forall k c, KEY_call k = Some c -> is_RC5 c = (k =? 2).
Proof.
  intros k c. unfold KEY_call.
  destruct (Z.eqb_spec k 1) as [->|]; [intros H; injection H as <-; reflexivity|].
  destruct (Z.eqb_spec k 2) as [->|]; [intros H; injection H as <-; reflexivity|].
  destruct (Z.eqb_spec k 3) as [->|]; [intros H; injection H as <-; reflexivity|].
  destruct (Z.eqb_spec k 4) as [->|]; [intros H; injection H as <-; reflexivity|].
  discriminate.
Qed.

(** X2.  One turn of the main loop.  With [k] the key number read after
    the 1 ms debounce delay: for [k] from 1 to 4, when the following reads
    find the keys held [n] times and then released, the turn returns after
    [n + 2] reads having run exactly the call [config.h] assigns to [k],
    and [RC5_toggle] is flipped exactly when [k = 2]; for [k = 5] the turn
    only waits 10 ms; and when no key is down at the read (a wake-up with
    no key to see) the turn sends nothing.  In the last two cases the keys
    are read once and [RC5_toggle] is kept. *)
Theorem main_turn_dispatch : forall pins fuel s,
  let k := KEY_scan (pins (polls s)) in
  let woke := [EvStandby; EvDlyMs 1; EvKey k] in
  (forall c n,
     KEY_call k = Some c ->
     held pins (S (polls s)) n = true -> (n < fuel)%nat ->
     main_turn pins fuel s =
       Some (tt, mkMachine
                   (if k =? 2 then u8 (Z.lxor (RC5_toggle s) 1) else RC5_toggle s)
                   (polls s + n + 2)
                   (trace s ++ woke
                    ++ call_trace c (RC5_toggle s) (responses pins (S (polls s)) n))))
  /\ (k = 5 ->
      main_turn pins fuel s =
        Some (tt, mkMachine (RC5_toggle s) (S (polls s))
                    (trace s ++ woke ++ [EvDlyMs 10])))
  /\ (k = 0 ->
      main_turn pins fuel s =
        Some (tt, mkMachine (RC5_toggle s) (S (polls s)) (trace s ++ woke))).
Proof.
  intros pins fuel s k woke. rewrite main_turn_spec. fold k. cbv zeta.
  split; [|split].
  - intros c n Hc Hh Hf. rewrite Hc.
    rewrite (run_call_held pins fuel c
               (mkMachine (RC5_toggle s) (S (polls s))
                  (trace s ++ [EvStandby; EvDlyMs 1; EvKey k]))
               n (KEY_call_well_typed k c Hc) Hh Hf).
    cbn [polls RC5_toggle trace]. rewrite <- app_assoc.
    replace (S (polls s) + S n)%nat with (polls s + n + 2)%nat by lia.
    rewrite (KEY_call_RC5 k c Hc). reflexivity.
  - intros ->. cbn [KEY_call Z.eqb]. unfold log. cbn [polls RC5_toggle trace].
    rewrite <- app_assoc. reflexivity.
  - intros ->. reflexivity.
Qed.

Lemma main_turn_dispatch_witness :
  main_turn (press PIN_KEY2 2) 3 reset =
    Some (tt, mkMachine 1 3
                (trace reset ++ [EvStandby; EvDlyMs 1; EvKey 2]
                 ++ call_trace (CallRC5 0x00 0x0B) 0
                      (responses (press PIN_KEY2 2) 1 1))).
Proof.
  apply (proj1 (main_turn_dispatch (press PIN_KEY2 2) 3 reset)
           (CallRC5 0x00 0x0B) 1%nat);
    [reflexivity | reflexivity | lia].
Defined.

(** ** The carrier between frames *)

Lemma carrier_after_app : forall u v on,
  carrier_after on (u ++ v) = carrier_after (carrier_after on u) v.
Proof.
  induction u as [|e u IH]; intros v on; [reflexivity|].
  destruct e; cbn [app carrier_after]; apply IH.
Qed.

Lemma pauses_dark_app : forall u v on,
  pauses_dark on (u ++ v) = pauses_dark on u && pauses_dark (carrier_after on u) v.
Proof.
  induction u as [|e u IH]; intros v on; [reflexivity|].
  destruct e; cbn [app carrier_after pauses_dark]; rewrite IH;
    try reflexivity; apply andb_assoc.
Qed.

Lemma settled_calm : forall w, settled w -> calm w.
Proof. intros w H. apply H. Qed.

Lemma calm_app : forall u v, calm u -> calm v -> calm (u ++ v).
Proof.
  intros u v [Hu1 Hu2] [Hv1 Hv2]. unfold calm.
  rewrite carrier_after_app, pauses_dark_app, Hu1, Hu2, Hv1, Hv2. split; reflexivity.
Qed.

Lemma settled_app : forall u v, settled u -> calm v -> settled (u ++ v).
Proof.
  intros u v Hu [Hv1 Hv2] on. destruct (Hu on) as [Hu1 Hu2].
  rewrite carrier_after_app, pauses_dark_app, Hu1, Hu2, Hv1, Hv2. split; reflexivity.
Qed.

Lemma settled_after : forall u v,
  (forall on, pauses_dark on u = true) -> settled v -> settled (u ++ v).
Proof.
  intros u v Hu Hv on. destruct (Hv (carrier_after on u)) as [Hv1 Hv2].
  rewrite carrier_after_app, pauses_dark_app, Hu, Hv1, Hv2. split; reflexivity.
Qed.

Lemma calm_flat_map : forall (A : Type) (f : A -> list Event) l,
  (forall x, calm (f x)) -> calm (flat_map f l).
Proof.
  intros A f l H. induction l as [|x l IH]; [split; reflexivity|].
  cbn [flat_map]. apply calm_app; [apply H | exact IH].
Qed.

Lemma settled_flat_map_cons : forall (A : Type) (f : A -> list Event) x l,
  (forall y, settled (f y)) -> settled (flat_map f (x :: l)).
Proof.
  intros A f x l H. cbn [flat_map].
  apply settled_app; [apply H|]. apply calm_flat_map. intros y. apply settled_calm, H.
Qed.

Lemma settled_burst_space : forall b s, settled (burst_space b s).
Proof. intros b s on. split; reflexivity. Qed.

Lemma settled_NEC_bit : forall b, settled (NEC_bit b).
Proof. intros [|] on; split; reflexivity. Qed.

(** A 1 bit ends with the carrier on: the RC-5 bits hold no pause, and
    it is the [IR_off] after the 14th bit that settles the carrier. *)
Lemma pauses_dark_RC5_bits : forall l on,
  pauses_dark on (flat_map RC5_bit l) = true.
Proof.
  induction l as [|b l IH]; intros on; [reflexivity|].
  destruct b; cbn; apply IH.
Qed.

Lemma calm_NEC_bytes : forall l, calm (flat_map NEC_byte l).
Proof.
  intros l. apply calm_flat_map. intros b. apply calm_flat_map. intros x.
  apply settled_calm, settled_NEC_bit.
Qed.

Lemma settled_NEC_telegram : forall addr cmd, settled (NEC_telegram addr cmd).
Proof.
  intros addr cmd. unfold NEC_telegram.
  apply settled_app; [apply settled_burst_space|].
  apply calm_app; [apply calm_NEC_bytes | apply settled_calm, settled_burst_space].
Qed.

Lemma settled_SAM_cycle : forall addr cmd, settled (SAM_cycle addr cmd).
Proof.
  intros addr cmd. unfold SAM_cycle, SAM_telegram.
  apply settled_app; [|split; reflexivity].
  apply settled_app; [apply settled_burst_space|].
  apply calm_app; [apply calm_NEC_bytes | apply settled_calm, settled_burst_space].
Qed.

Lemma settled_RC5_raw_cycle : forall addr cmd t, settled (RC5_raw_cycle addr cmd t).
Proof.
  intros addr cmd t. unfold RC5_raw_cycle.
  apply settled_after; [|intros on; split; reflexivity].
  apply pauses_dark_RC5_bits.
Qed.

Lemma settled_SON_cycle : forall addr cmd bits, settled (SON_cycle addr cmd bits).
Proof.
  intros addr cmd bits. unfold SON_cycle, SON_telegram.
  apply settled_app; [|split; reflexivity].
  apply settled_app; [apply settled_burst_space|].
  apply calm_app; apply calm_flat_map; intros b; apply settled_calm, settled_burst_space.
Qed.

Lemma settled_polled_after : forall w ks, settled w -> settled (polled_after w ks).
Proof.
  intros w ks Hw. unfold polled_after.
  destruct (ks ++ [0]) as [|k l] eqn:E; [destruct ks; discriminate E|].
  apply settled_flat_map_cons. intros y.
  apply settled_app; [exact Hw | split; reflexivity].
Qed.

Lemma calm_polled_before : forall w ks, calm w -> calm (polled_before w ks).
Proof.
  intros w ks [Hw1 Hw2]. unfold polled_before.
  apply calm_app; [|split; reflexivity].
  apply calm_flat_map. intros k. split; cbn; assumption.
Qed.

Lemma settled_call_trace : forall c t ks, settled (call_trace c t ks).
Proof.
  intros [addr cmd|addr cmd|addr cmd|addr cmd bits] t ks; cbn [call_trace].
  - change (settled ([carrier NEC_FREQ] ++ (NEC_telegram addr cmd
                       ++ polled_before NEC_repeat_cycle ks))).
    apply settled_after; [reflexivity|].
    apply settled_app; [apply settled_NEC_telegram|].
    apply calm_polled_before. split; reflexivity.
  - change (settled ([carrier NEC_FREQ] ++ polled_after (SAM_cycle addr cmd) ks)).
    apply settled_after; [reflexivity|].
    apply settled_polled_after, settled_SAM_cycle.
  - change (settled ([carrier RC5_FREQ] ++ polled_after (RC5_raw_cycle addr cmd t) ks)).
    apply settled_after; [reflexivity|].
    apply settled_polled_after, settled_RC5_raw_cycle.
  - change (settled ([carrier SON_FREQ] ++ polled_after (SON_cycle addr cmd bits) ks)).
    apply settled_after; [reflexivity|].
    apply settled_polled_after, settled_SON_cycle.
Qed.

(** X3.  Whatever the state of the LED pin when an encoder is called, and
    for every bound under which the call returns: the call leaves the
    carrier off, and every millisecond delay and every read of the keys in
    the call happens with the carrier off.  The LED is lit only inside the
    microsecond bursts. *)
Theorem carrier_off_between_frames : forall pins fuel c s s' on,
  well_typed c ->
  run_call pins fuel c s = Some (tt, s') ->
  carrier_after on (emitted s s') = false
  /\ pauses_dark on (emitted s s') = true.
Proof.
  intros pins fuel c s s' on Hc Hrun.
  rewrite (run_call_spec pins fuel c s Hc) in Hrun.
  destruct (first_release pins (polls s) fuel) as [n|]; [|discriminate].
  injection Hrun as <-. rewrite emitted_app. apply settled_call_trace.
Qed.

Lemma carrier_off_between_frames_witness :
  exists s',
    run_call (press PIN_KEY2 1) 2 (CallRC5 0x00 0x0B) reset = Some (tt, s')
    /\ carrier_after true (emitted reset s') = false.
Proof.
  eexists. split; [vm_compute; reflexivity|].
  apply (carrier_off_between_frames (press PIN_KEY2 1) 2 (CallRC5 0x00 0x0B)
           reset _ true).
  - cbn. lia.
  - vm_compute. reflexivity.
Defined.

(** The invariant of the main loop: carrier off, every pause dark, and
    [RC5_toggle] a bit. *)
Lemma main_turn_invariant : forall pins fuel s s',
  calm (trace s) -> (RC5_toggle s = 0 \/ RC5_toggle s = 1) ->
  main_turn pins fuel s = Some (tt, s') ->
  calm (trace s') /\ (RC5_toggle s' = 0 \/ RC5_toggle s' = 1).
Proof.
  intros pins fuel s s' Hcalm Ht Hrun. rewrite main_turn_spec in Hrun. cbv zeta in Hrun.
  set (k := KEY_scan (pins (polls s))) in *.
  assert (Hw : calm (trace s ++ [EvStandby; EvDlyMs 1; EvKey k]))
    by (apply calm_app; [exact Hcalm | split; reflexivity]).
  destruct (KEY_call k) as [c|] eqn:Ec.
  - rewrite (run_call_spec pins fuel c _ (KEY_call_well_typed k c Ec)) in Hrun.
    cbn [polls RC5_toggle trace] in Hrun.
    destruct (first_release pins (S (polls s)) fuel) as [n|]; [|discriminate].
    injection Hrun as <-. cbn [trace RC5_toggle]. split.
    + apply calm_app; [exact Hw | apply settled_calm, settled_call_trace].
    + destruct (is_RC5 c); [|exact Ht].
      destruct Ht as [-> | ->]; [right | left]; reflexivity.
  - destruct (k =? 5); injection Hrun as <-; cbn [log trace RC5_toggle].
    + split; [|exact Ht]. apply calm_app; [exact Hw | split; reflexivity].
    + split; assumption.
Qed.

(** X4.  However many turns the main loop has made since reset, and
    whatever the keys did: the carrier is off, every standby, millisecond
    delay and read of the keys so far happened with the carrier off, and
    [RC5_toggle] is 0 or 1. *)
Theorem main_loop_invariant : forall pins turns fuel s',
  main_loop pins turns fuel reset = Some (tt, s') ->
  carrier_after false (trace s') = false
  /\ pauses_dark false (trace s') = true
  /\ (RC5_toggle s' = 0 \/ RC5_toggle s' = 1).
Proof.
  intros pins turns fuel.
  assert (G : forall s s',
             calm (trace s) -> (RC5_toggle s = 0 \/ RC5_toggle s = 1) ->
             main_loop pins turns fuel s = Some (tt, s') ->
             calm (trace s') /\ (RC5_toggle s' = 0 \/ RC5_toggle s' = 1)).
  { induction turns as [|turns IH]; intros s s' Hc Ht Hrun.
    - injection Hrun as <-. split; assumption.
    - cbn [main_loop] in Hrun. unfold bind in Hrun.
      destruct (main_turn pins fuel s) as [[[] s1]|] eqn:E1; [|discriminate].
      destruct (main_turn_invariant pins fuel s s1 Hc Ht E1) as [Hc1 Ht1].
      apply (IH s1 s' Hc1 Ht1 Hrun). }
  intros s' Hrun.
  destruct (G reset s' ltac:(split; reflexivity) ltac:(left; reflexivity) Hrun)
    as [[H1 H2] H3].
  repeat split; assumption.
Qed.

Lemma main_loop_invariant_witness :
  exists s',
    main_loop (press PIN_KEY2 2) 2 3 reset = Some (tt, s')
    /\ carrier_after false (trace s') = false.
Proof.
  eexists. split; [vm_compute; reflexivity|].
  apply (main_loop_invariant (press PIN_KEY2 2) 2 3). vm_compute. reflexivity.
Defined.

(** ** Air time *)

Lemma durations_app : forall u v on,
  durations on (u ++ v) = padd (durations on u) (durations (carrier_after on u) v).
Proof.
  induction u as [|e u IH]; intros v on.
  - cbn. unfold padd. destruct (durations on v). reflexivity.
  - destruct e; cbn [app durations carrier_after]; rewrite ?IH; try reflexivity;
      unfold padd; destruct (durations on u) as [b1 s1];
      destruct (durations (carrier_after on u) v) as [b2 s2];
      destruct on; cbn [fst snd]; f_equal; lia.
Qed.

Lemma ones_app : forall a b, ones (a ++ b) = ones a + ones b.
Proof.
  intros a b. unfold ones. rewrite filter_app, length_app. lia.
Qed.

Lemma ones_negb : forall l, ones (map negb l) = Z.of_nat (length l) - ones l.
Proof.
  unfold ones. induction l as [|b l IH]; [reflexivity|].
  destruct b; cbn [map negb filter length]; lia.
Qed.

Lemma ones_bounds : forall l, 0 <= ones l <= Z.of_nat (length l).
Proof.
  unfold ones. induction l as [|b l IH]; [cbn; lia|].
  destruct b; cbn [filter length]; lia.
Qed.

Lemma bits_lsb_inv8 : forall b,
  0 <= b < 256 -> bits_lsb 8 (inv8 b) = map negb (bits_lsb 8 b).
Proof.
  intros b Hb. unfold bits_lsb. rewrite map_map. apply map_ext_in.
  intros j Hj. apply in_seq in Hj. apply inv8_testbit; lia.
Qed.

(** Units that do not depend on the carrier state they are entered in and
    leave the carrier off add up. *)
Lemma durations_units : forall (A : Type) (f : A -> list Event) (c : Z * Z) l,
  (forall x on, durations on (f x) = c /\ carrier_after on (f x) = false) ->
  forall on,
  durations on (flat_map f l)
  = (fst c * Z.of_nat (length l), snd c * Z.of_nat (length l)).
Proof.
  intros A f c l H. induction l as [|x l IH]; intros on.
  - cbn [flat_map length durations]. f_equal; lia.
  - cbn [flat_map length]. destruct (H x on) as [Hd Hc].
    rewrite durations_app, Hd, Hc, IH. unfold padd. cbn [fst snd]. f_equal; lia.
Qed.

Lemma NEC_bits_durations : forall l on,
  durations on (flat_map NEC_bit l)
  = (552 * Z.of_nat (length l), 543 * Z.of_nat (length l) + 1125 * ones l).
Proof.
  induction l as [|b l IH]; intros on; [reflexivity|].
  cbn [flat_map]. rewrite durations_app.
  replace (carrier_after on (NEC_bit b)) with false by (destruct b; reflexivity).
  rewrite IH.
  replace (durations on (NEC_bit b)) with (552, if b then 1668 else 543)
    by (destruct b; reflexivity).
  unfold padd, ones. destruct b; cbn [fst snd filter length]; f_equal; lia.
Qed.

Lemma NEC_bytes_bits : forall l,
  flat_map NEC_byte l = flat_map NEC_bit (flat_map (bits_lsb 8) l).
Proof.
  induction l as [|b l IH]; [reflexivity|].
  cbn [flat_map]. rewrite flat_map_app, IH. reflexivity.
Qed.

(** Carrier and silence requested by one NEC telegram, by the number of 1
    bits in its four bytes. *)
Lemma NEC_telegram_durations : forall addr cmd,
  durations false (NEC_telegram addr cmd)
  = (27216, 22419 + 1125 * ones (flat_map (bits_lsb 8) (NEC_bytes addr cmd))).
Proof.
  intros addr cmd. unfold NEC_telegram.
  rewrite durations_app, durations_app, NEC_bytes_bits, NEC_bits_durations.
  assert (Hl : length (flat_map (bits_lsb 8) (NEC_bytes addr cmd)) = 32%nat).
  { unfold NEC_bytes. destruct (addr <=? 0xFF); cbn [flat_map];
      rewrite !length_app, !bits_lsb_length; reflexivity. }
  assert (H1 : durations false (burst_space 9000 4500) = (9000, 4500))
    by reflexivity.
  assert (H2 : forall on, durations on NEC_mark = (552, 543))
    by (intros [|]; reflexivity).
  rewrite H1, H2, Hl. unfold padd. cbn [fst snd]. f_equal; lia.
Qed.

Lemma NEC_standard_ones : forall addr cmd,
  0 <= addr < 256 -> 0 <= cmd < 256 ->
  ones (flat_map (bits_lsb 8) (NEC_bytes addr cmd)) = 16.
Proof.
  intros addr cmd Ha Hc. unfold NEC_bytes.
  replace (addr <=? 0xFF) with true by (symmetry; apply Z.leb_le; lia).
  cbn [flat_map]. rewrite app_nil_r, !ones_app, !bits_lsb_inv8 by assumption.
  rewrite !ones_negb, !bits_lsb_length. lia.
Qed.

Lemma polled_before_durations : forall w c ks,
  durations false w = c -> carrier_after false w = false ->
  durations false (polled_before w ks)
  = (fst c * Z.of_nat (length ks), snd c * Z.of_nat (length ks)).
Proof.
  intros w c ks Hd Hc. unfold polled_before. rewrite durations_app.
  assert (Hu : forall l,
             durations false (flat_map (fun k => EvKey k :: w) l)
             = (fst c * Z.of_nat (length l), snd c * Z.of_nat (length l))
             /\ carrier_after false (flat_map (fun k => EvKey k :: w) l) = false).
  { induction l as [|k l [IH1 IH2]];
      [split; [cbn [flat_map length durations]; f_equal; lia | reflexivity]|].
    cbn [flat_map length].
    change (EvKey k :: w ++ flat_map (fun k0 => EvKey k0 :: w) l)
      with ((EvKey k :: w) ++ flat_map (fun k0 => EvKey k0 :: w) l).
    rewrite durations_app, carrier_after_app. cbn [durations carrier_after].
    rewrite Hd, Hc, IH1, IH2. split; [|reflexivity].
    unfold padd. cbn [fst snd]. f_equal; lia. }
  destruct (Hu ks) as [-> _]. unfold padd. cbn [fst snd durations]. f_equal; lia.
Qed.

Lemma polled_after_durations : forall w c ks,
  (forall on, durations on w = c) -> (forall on, carrier_after on w = false) ->
  forall on,
  durations on (polled_after w ks)
  = (fst c * (Z.of_nat (length ks) + 1), snd c * (Z.of_nat (length ks) + 1)).
Proof.
  intros w c ks Hd Hc on. unfold polled_after.
  rewrite (durations_units Z (fun k => w ++ [EvKey k]) c).
  - rewrite length_app. cbn [length]. f_equal; lia.
  - intros k on'. rewrite durations_app, carrier_after_app, Hd, Hc.
    split; [|reflexivity]. unfold padd. destruct c as [c1 c2].
    cbn [fst snd durations]. f_equal; lia.
Qed.

(** X5.  The air time of the standard NEC protocol does not depend on the
    data.  For every 8-bit address and command, when the keys are read as
    held [n] times and then as released, [NEC_sendCode] requests in all
    27216 us of carrier and 40419 us of silence for the telegram (67.635 ms
    together: each byte is sent with its inverse, so 16 of the 32 bits are
    1 bits), and 9552 us of carrier and 98793 us of silence (108.345 ms
    together) for each of the [n] repeat cycles. *)
Theorem NEC_standard_air_time : forall pins fuel addr cmd s n,
  0 <= addr < 256 -> 0 <= cmd < 256 ->
  held pins (polls s) n = true -> (n < fuel)%nat ->
  exists s',
    NEC_sendCode pins fuel addr cmd s = Some (tt, s')
    /\ durations false (emitted s s')
       = (27216 + 9552 * Z.of_nat n, 40419 + 98793 * Z.of_nat n).
Proof.
  intros pins fuel addr cmd s n Ha Hc Hh Hf.
  eexists. split.
  - rewrite (NEC_sendCode_spec pins fuel addr cmd s ltac:(lia) Hc).
    rewrite (held_first_release pins fuel (polls s) n Hh Hf). reflexivity.
  - rewrite emitted_app.
    change (carrier NEC_FREQ :: ?x) with ([carrier NEC_FREQ] ++ x).
    assert (Hd0 : durations false [carrier NEC_FREQ] = (0, 0)) by reflexivity.
    assert (Hc0 : carrier_after false [carrier NEC_FREQ] = false) by reflexivity.
    rewrite durations_app, Hd0, Hc0, durations_app.
    rewrite NEC_telegram_durations, (NEC_standard_ones addr cmd Ha Hc).
    destruct (settled_NEC_telegram addr cmd false) as [-> _].
    rewrite (polled_before_durations NEC_repeat_cycle (9552, 98793));
      [|reflexivity | reflexivity].
    rewrite responses_length. unfold padd. cbn [fst snd]. f_equal; lia.
Qed.

Lemma NEC_standard_air_time_witness :
  exists s',
    NEC_sendCode (press PIN_KEY1 2) 3 0x04 0x08 reset = Some (tt, s')
    /\ durations false (emitted reset s')
       = (27216 + 9552 * Z.of_nat 2, 40419 + 98793 * Z.of_nat 2).
Proof.
  apply (NEC_standard_air_time (press PIN_KEY1 2) 3 0x04 0x08 reset 2);
    [lia | lia | reflexivity | lia].
Defined.

Lemma RC5_bits_durations : forall l on,
  durations on (flat_map RC5_bit l)
  = (880 * (Z.of_nat (length l) - ones l) + 871 * ones l,
     871 * (Z.of_nat (length l) - ones l) + 880 * ones l).
Proof.
  unfold ones. induction l as [|b l IH]; intros on; [reflexivity|].
  destruct b; cbn [flat_map RC5_bit app durations filter length];
    unfold RC5_half1, RC5_half2; rewrite IH; f_equal; lia.
Qed.

Lemma bits_msb_length : forall n v, length (bits_msb n v) = n.
Proof.
  intros n v. unfold bits_msb. rewrite length_map, length_rev, length_seq.
  reflexivity.
Qed.

Lemma RC5_raw_cycle_durations : forall addr cmd t on,
  let o := ones (bits_msb 14 (RC5_message addr cmd t)) in
  durations on (RC5_raw_cycle addr cmd t) = (12320 - 9 * o, 101194 + 9 * o).
Proof.
  intros addr cmd t on o. unfold RC5_raw_cycle.
  rewrite durations_app, RC5_bits_durations, bits_msb_length. fold o.
  unfold padd. cbn [fst snd durations]. f_equal; lia.
Qed.

(** X6.  The length of an RC-5 frame does not depend on the data.  For all
    arguments and every value of [RC5_toggle], when the keys are read as
    held [n] times and then as released, the [n + 1] cycles of
    [RC5_sendCode] request 113514 us each, carrier and silence together
    (14 bits of 880 + 871 us and the 89 ms pause); of these between
    12194 us and 12320 us are carrier, by the number of 1 bits. *)
Theorem RC5_air_time : forall pins fuel addr cmd s n,
  held pins (polls s) n = true -> (n < fuel)%nat ->
  exists s',
    RC5_sendCode pins fuel addr cmd s = Some (tt, s')
    /\ fst (durations false (emitted s s')) + snd (durations false (emitted s s'))
       = 113514 * (Z.of_nat n + 1)
    /\ 12194 * (Z.of_nat n + 1) <= fst (durations false (emitted s s'))
       <= 12320 * (Z.of_nat n + 1).
Proof.
  intros pins fuel addr cmd s n Hh Hf. eexists. split.
  - rewrite (RC5_sendCode_spec pins fuel addr cmd s).
    rewrite (held_first_release pins fuel (polls s) n Hh Hf). reflexivity.
  - rewrite emitted_app.
    assert (Hd0 : durations false [carrier RC5_FREQ] = (0, 0)) by reflexivity.
    change (carrier RC5_FREQ :: ?x) with ([carrier RC5_FREQ] ++ x).
    rewrite durations_app, Hd0.
    set (o := ones (bits_msb 14 (RC5_message addr cmd (RC5_toggle s)))).
    rewrite (polled_after_durations _ (12320 - 9 * o, 101194 + 9 * o));
      [|intros on; apply RC5_raw_cycle_durations
       |intros on; apply settled_RC5_raw_cycle].
    rewrite responses_length. unfold padd. cbn [fst snd].
    pose proof (ones_bounds (bits_msb 14 (RC5_message addr cmd (RC5_toggle s)))) as Ho.
    rewrite bits_msb_length in Ho. fold o in Ho.
    split; [ring | split; nia].
Qed.

Lemma RC5_air_time_witness :
  exists s',
    RC5_sendCode (press PIN_KEY2 1) 2 0x00 0x0B reset = Some (tt, s')
    /\ fst (durations false (emitted reset s'))
       + snd (durations false (emitted reset s'))
       = 113514 * (Z.of_nat 1 + 1).
Proof.
  destruct (RC5_air_time (press PIN_KEY2 1) 2 0x00 0x0B reset 1 eq_refl ltac:(lia))
    as [s' [E [T _]]].
  exists s'. split; assumption.
Defined.

Lemma SON_bits_durations : forall l on,
  durations on (flat_map SON_bit l)
  = (587 * Z.of_nat (length l) + 605 * ones l, 579 * Z.of_nat (length l)).
Proof.
  unfold ones. induction l as [|b l IH]; intros on; [reflexivity|].
  destruct b; cbn [flat_map SON_bit burst_space app durations filter length];
    rewrite IH; f_equal; lia.
Qed.

Lemma SON_address_length : forall addr bits,
  Z.of_nat (length (SON_address addr bits)) = SON_addr_width bits.
Proof.
  intros addr bits. unfold SON_address, SON_addr_width, addr_bits.
  destruct (bits =? 12); [|destruct (bits =? 15); [|destruct (bits =? 20)]];
    rewrite ?length_app, ?length_map, ?length_seq; reflexivity.
Qed.

Lemma SON_cycle_durations : forall addr cmd bits on,
  let p := bits_lsb 7 cmd ++ SON_address addr bits in
  let w := 7 + SON_addr_width bits in
  durations on (SON_cycle addr cmd bits)
  = (2400 + 587 * w + 605 * ones p, 27579 + 579 * w).
Proof.
  intros addr cmd bits on p w. unfold SON_cycle, SON_telegram.
  rewrite <- flat_map_app. fold p.
  assert (H1 : durations on (burst_space 2400 579) = (2400, 579))
    by (destruct on; reflexivity).
  rewrite !durations_app, H1, SON_bits_durations.
  assert (Hl : Z.of_nat (length p) = w).
  { unfold p, w. rewrite length_app, Nat2Z.inj_add, bits_lsb_length.
    rewrite SON_address_length. reflexivity. }
  rewrite Hl.
  replace (carrier_after on (burst_space 2400 579 ++ flat_map SON_bit p)) with false.
  - unfold padd. cbn [fst snd durations]. f_equal; lia.
  - symmetry. rewrite carrier_after_app.
    assert (Hs : forall l b, carrier_after b (flat_map SON_bit l) = false \/ l = [])
      by (intros l b; destruct l as [|x l]; [right; reflexivity|left];
          apply (settled_flat_map_cons _ SON_bit x l
                   (fun y => settled_burst_space _ _) b)).
    destruct (Hs p (carrier_after on (burst_space 2400 579))) as [-> | ->];
      reflexivity.
Qed.

(** X7.  The length of a SONY frame depends on the data.  For every
    address, command and variant value, when the keys are read as held [n]
    times and then as released, each of the [n + 1] cycles of [SON_sendCode]
    requests 2400 + 587 w + 605 o microseconds of carrier and 27579 + 579 w
    of silence, where [w] is the number of bits sent (7 and the address
    width of the variant) and [o] the number of 1 bits among them: from
    43971 us to 51231 us a cycle for the 12-bit variant. *)
Theorem SON_air_time : forall pins fuel addr cmd bits s n,
  held pins (polls s) n = true -> (n < fuel)%nat ->
  let p := bits_lsb 7 cmd ++ SON_address addr bits in
  let w := 7 + SON_addr_width bits in
  exists s',
    SON_sendCode pins fuel addr cmd bits s = Some (tt, s')
    /\ durations false (emitted s s')
       = ((2400 + 587 * w + 605 * ones p) * (Z.of_nat n + 1),
          (27579 + 579 * w) * (Z.of_nat n + 1))
    /\ 0 <= ones p <= w
    /\ (bits = 12 ->
        43971 <= (2400 + 587 * w + 605 * ones p) + (27579 + 579 * w) <= 51231).
Proof.
  intros pins fuel addr cmd bits s n Hh Hf p w. eexists. split.
  - rewrite (SON_sendCode_spec pins fuel addr cmd bits s).
    rewrite (held_first_release pins fuel (polls s) n Hh Hf). reflexivity.
  - rewrite emitted_app.
    assert (Hd0 : durations false [carrier SON_FREQ] = (0, 0)) by reflexivity.
    change (carrier SON_FREQ :: ?x) with ([carrier SON_FREQ] ++ x).
    rewrite durations_app, Hd0.
    rewrite (polled_after_durations _
               (2400 + 587 * w + 605 * ones p, 27579 + 579 * w));
      [|intros on; apply SON_cycle_durations
       |intros on; apply settled_SON_cycle].
    rewrite responses_length. unfold padd. cbn [fst snd].
    assert (Ho : 0 <= ones p <= w).
    { pose proof (ones_bounds p) as Ho. unfold p at 3 in Ho.
      rewrite length_app, Nat2Z.inj_add, bits_lsb_length, SON_address_length in Ho.
      exact Ho. }
    split; [f_equal; lia|]. split; [exact Ho|].
    intros ->. unfold w in *. change (SON_addr_width 12) with 5 in *. lia.
Qed.

Lemma SON_air_time_witness :
  exists s',
    SON_sendCode (press PIN_KEY3 1) 2 0x01 0x15 12 reset = Some (tt, s')
    /\ durations false (emitted reset s') = (23728, 69054).
Proof.
  destruct (SON_air_time (press PIN_KEY3 1) 2 0x01 0x15 12 reset 1 eq_refl ltac:(lia))
    as [s' [E [T _]]].
  exists s'. split; [exact E|]. rewrite T. reflexivity.
Defined.

(** ** What a receiver can tell apart *)

(** X8.  An extended NEC address whose high byte is the inverse of its low
    byte is sent exactly like the 8-bit address that is its low byte: for
    every byte [a] below 255 and every command, [NEC_sendCode] with address
    [a + 256 * ~a] (above 0xFF, so taken as extended) does what it does
    with address [a], for every sequence of key reads and every bound. *)
Theorem NEC_extended_alias : forall pins fuel a cmd s,
  0 <= a < 255 -> 0 <= cmd < 256 ->
  0xFF < a + 256 * inv8 a < 65536
  /\ NEC_sendCode pins fuel (a + 256 * inv8 a) cmd s
     = NEC_sendCode pins fuel a cmd s.
Proof.
  intros pins fuel a cmd s Ha Hc.
  assert (Hr : 0xFF < a + 256 * inv8 a < 65536) by (unfold inv8; lia).
  split; [exact Hr|].
  rewrite (NEC_sendCode_spec pins fuel (a + 256 * inv8 a) cmd s ltac:(lia) Hc).
  rewrite (NEC_sendCode_spec pins fuel a cmd s ltac:(lia) Hc).
  assert (E : NEC_telegram (a + 256 * inv8 a) cmd = NEC_telegram a cmd).
  { unfold NEC_telegram, NEC_bytes.
    replace (a + 256 * inv8 a <=? 0xFF) with false by (symmetry; apply Z.leb_gt; lia).
    replace (a <=? 0xFF) with true by (symmetry; apply Z.leb_le; lia).
    replace ((a + 256 * inv8 a) mod 256) with a
      by (apply (Z.mod_unique_pos _ _ (inv8 a)); lia).
    replace ((a + 256 * inv8 a) / 256) with (inv8 a)
      by (apply (Z.div_unique_pos _ _ _ a); lia).
    reflexivity. }
  rewrite E. reflexivity.
Qed.

Lemma NEC_extended_alias_witness :
  NEC_sendCode (press PIN_KEY1 1) 2 0xFB04 0x08 reset
  = NEC_sendCode (press PIN_KEY1 1) 2 0x04 0x08 reset.
Proof.
  apply (proj2 (NEC_extended_alias (press PIN_KEY1 1) 2 0x04 0x08 reset
                  ltac:(lia) ltac:(lia))).
Defined.

Lemma app_inj_length : forall (A : Type) (a a' b b' : list A),
  length a = length a' -> a ++ b = a' ++ b' -> a = a' /\ b = b'.
Proof.
  intros A. induction a as [|x a IH]; intros [|x' a'] b b' Hl H;
    try discriminate Hl.
  - split; [reflexivity | exact H].
  - cbn [app] in H. injection H as -> H. injection Hl as Hl.
    destruct (IH a' b b' Hl H) as [-> ->]. split; reflexivity.
Qed.

Lemma cons_app_inj : forall (A : Type) (x : A) (a b p : list A),
  x :: a ++ p = x :: b ++ p -> a = b.
Proof. intros A x a b p H. injection H as H. apply app_inv_tail in H. exact H. Qed.

Lemma testbit_inj_below : forall n a a',
  0 <= n -> 0 <= a < 2 ^ n -> 0 <= a' < 2 ^ n ->
  (forall j, 0 <= j < n -> Z.testbit a j = Z.testbit a' j) -> a = a'.
Proof.
  intros n a a' Hn Ha Ha' H. apply Z.bits_inj'. intros j Hj.
  destruct (Z.lt_ge_cases j n) as [Hlt|Hge].
  - apply H. lia.
  - rewrite (testbit_above n a j), (testbit_above n a' j) by lia. reflexivity.
Qed.

Lemma bits_lsb_inj : forall n a a',
  0 <= a < 2 ^ Z.of_nat n -> 0 <= a' < 2 ^ Z.of_nat n ->
  bits_lsb n a = bits_lsb n a' -> a = a'.
Proof.
  intros n a a' Ha Ha' H. apply (testbit_inj_below (Z.of_nat n)); try lia.
  intros j Hj. unfold bits_lsb in H.
  pose proof (ext_in_map H (Z.to_nat j)) as E. cbv beta in E.
  rewrite Z2Nat.id in E by lia. apply E. apply in_seq. lia.
Qed.

Lemma NEC_bits_inj : forall l l',
  flat_map NEC_bit l = flat_map NEC_bit l' -> l = l'.
Proof.
  induction l as [|b l IH]; intros [|b' l'] H.
  - reflexivity.
  - destruct b'; discriminate H.
  - destruct b; discriminate H.
  - destruct b, b'; cbn [flat_map NEC_bit NEC_mark burst_space app] in H.
    + injection H as H. f_equal. apply IH, H.
    + injection H as H. destruct l' as [|[|] l']; discriminate H.
    + injection H as H. destruct l as [|[|] l]; discriminate H.
    + injection H as H. f_equal. apply IH, H.
Qed.

Lemma NEC_bytes_range : forall addr cmd,
  0 <= addr < 65536 -> 0 <= cmd < 256 ->
  Forall (fun b => 0 <= b < 256) (NEC_bytes addr cmd).
Proof.
  intros addr cmd Ha Hc. unfold NEC_bytes, inv8.
  destruct (Z.leb_spec addr 0xFF); repeat constructor; try lia.
  - apply Z.mod_pos_bound; lia.
  - apply Z.mod_pos_bound; lia.
  - apply Z.div_pos; lia.
  - apply Z.div_lt_upper_bound; lia.
Qed.

Lemma bytes_bits_inj : forall l l',
  Forall (fun b => 0 <= b < 256) l -> Forall (fun b => 0 <= b < 256) l' ->
  length l = length l' ->
  flat_map (bits_lsb 8) l = flat_map (bits_lsb 8) l' -> l = l'.
Proof.
  induction l as [|b l IH]; intros [|b' l'] Hr Hr' Hl H; try discriminate Hl.
  - reflexivity.
  - cbn [flat_map] in H. inversion Hr as [|? ? Hb Hrl]. inversion Hr' as [|? ? Hb' Hrl'].
    subst. destruct (app_inj_length _ _ _ _ _
                       ltac:(rewrite !bits_lsb_length; reflexivity) H) as [E1 E2].
    f_equal.
    + apply (bits_lsb_inj 8); [exact Hb | exact Hb' | exact E1].
    + injection Hl as Hl. apply IH; assumption.
Qed.

Lemma NEC_bytes_length : forall addr cmd, length (NEC_bytes addr cmd) = 4%nat.
Proof. intros addr cmd. unfold NEC_bytes. destruct (addr <=? 0xFF); reflexivity. Qed.

Lemma NEC_telegram_inj : forall addr cmd addr' cmd',
  0 <= addr < 65536 -> 0 <= cmd < 256 ->
  0 <= addr' < 65536 -> 0 <= cmd' < 256 ->
  NEC_telegram addr cmd = NEC_telegram addr' cmd' ->
  NEC_bytes addr cmd = NEC_bytes addr' cmd'.
Proof.
  intros addr cmd addr' cmd' Ha Hc Ha' Hc' H. unfold NEC_telegram in H.
  apply app_inv_head in H. apply app_inv_tail in H.
  rewrite !NEC_bytes_bits in H. apply NEC_bits_inj in H.
  apply bytes_bits_inj; try apply NEC_bytes_range; try assumption.
  rewrite !NEC_bytes_length. reflexivity.
Qed.

(** X9.  Apart from that, an NEC telegram tells its data.  If two calls of
    [NEC_sendCode] from the same state under the same key reads leave the
    same trace, then they were given the same command and sent the same
    four bytes, and the same address when both addresses are 8-bit or both
    are extended. *)
Theorem NEC_telegram_injective : forall pins fuel addr cmd addr' cmd' s r,
  0 <= addr < 65536 -> 0 <= cmd < 256 ->
  0 <= addr' < 65536 -> 0 <= cmd' < 256 ->
  NEC_sendCode pins fuel addr cmd s = Some (tt, r) ->
  NEC_sendCode pins fuel addr' cmd' s = Some (tt, r) ->
  cmd = cmd'
  /\ NEC_bytes addr cmd = NEC_bytes addr' cmd'
  /\ ((addr <= 0xFF <-> addr' <= 0xFF) -> addr = addr').
Proof.
  intros pins fuel addr cmd addr' cmd' s r Ha Hc Ha' Hc' H1 H2.
  rewrite (NEC_sendCode_spec pins fuel addr cmd s Ha Hc) in H1.
  rewrite (NEC_sendCode_spec pins fuel addr' cmd' s Ha' Hc') in H2.
  destruct (first_release pins (polls s) fuel) as [n|]; [|discriminate].
  rewrite <- H1 in H2.
  apply (f_equal (fun o : option (unit * Machine) =>
                    match o with Some (_, m) => trace m | None => [] end)) in H2.
  cbv beta iota in H2. cbn [trace] in H2.
  apply app_inv_head in H2. apply cons_app_inj in H2. symmetry in H2.
  pose proof (NEC_telegram_inj addr cmd addr' cmd' Ha Hc Ha' Hc' H2) as Hb.
  split; [|split; [exact Hb|]].
  - unfold NEC_bytes in Hb.
    destruct (addr <=? 0xFF), (addr' <=? 0xFF); injection Hb; intros; assumption.
  - intros Hiff. unfold NEC_bytes in Hb.
    destruct (Z.leb_spec addr 0xFF) as [L|L], (Z.leb_spec addr' 0xFF) as [L'|L'];
      try lia.
    + injection Hb; intros; assumption.
    + injection Hb as Hm Hd _ _.
      rewrite (Z.div_mod addr 256), (Z.div_mod addr' 256) by lia.
      rewrite Hm, Hd. reflexivity.
Qed.

Lemma NEC_telegram_injective_witness :
  0x08 = 0x08
  /\ NEC_bytes 0xFB04 0x08 = NEC_bytes 0x04 0x08
  /\ ((0xFB04 <= 0xFF <-> 0x04 <= 0xFF) -> 0xFB04 = 0x04).
Proof.
  apply (NEC_telegram_injective (press PIN_KEY1 1) 2 0xFB04 0x08 0x04 0x08 reset
           (match NEC_sendCode (press PIN_KEY1 1) 2 0x04 0x08 reset with
            | Some (_, r) => r
            | None => reset
            end));
    [lia | lia | lia | lia | vm_compute; reflexivity | vm_compute; reflexivity].
Defined.

Lemma RC5_bits_inj : forall l l',
  flat_map RC5_bit l = flat_map RC5_bit l' -> l = l'.
Proof.
  induction l as [|b l IH]; intros [|b' l'] H.
  - reflexivity.
  - destruct b'; discriminate H.
  - destruct b; discriminate H.
  - destruct b, b'; cbn [flat_map RC5_bit app] in H; try discriminate H;
      injection H as H; f_equal; apply IH, H.
Qed.

Lemma polled_after_inj : forall w w' ks,
  length w = length w' -> polled_after w ks = polled_after w' ks -> w = w'.
Proof.
  intros w w' ks Hl H. unfold polled_after in H.
  destruct (ks ++ [0]) as [|k l] eqn:E; [destruct ks; discriminate E|].
  cbn [flat_map] in H. rewrite <- !app_assoc in H.
  apply (app_inj_length _ _ _ _ _ Hl H).
Qed.

Lemma RC5_raw_cycle_length : forall addr cmd t,
  length (RC5_raw_cycle addr cmd t) = 58%nat.
Proof.
  intros addr cmd t. unfold RC5_raw_cycle. rewrite length_app.
  assert (H : forall l, length (flat_map RC5_bit l) = (4 * length l)%nat)
    by (induction l as [|[|] l IH]; cbn [flat_map RC5_bit app length]; lia).
  rewrite H, bits_msb_length. reflexivity.
Qed.

(** X10.  An RC-5 telegram tells its data.  For 5-bit addresses and 7-bit
    commands, if two calls of [RC5_sendCode] from the same state under the
    same key reads leave the same trace, they were given the same address
    and the same command. *)
Theorem RC5_telegram_injective : forall pins fuel addr cmd addr' cmd' s r,
  0 <= addr < 32 -> 0 <= cmd < 128 ->
  0 <= addr' < 32 -> 0 <= cmd' < 128 ->
  RC5_sendCode pins fuel addr cmd s = Some (tt, r) ->
  RC5_sendCode pins fuel addr' cmd' s = Some (tt, r) ->
  addr = addr' /\ cmd = cmd'.
Proof.
  intros pins fuel addr cmd addr' cmd' s r Ha Hc Ha' Hc' H1 H2.
  rewrite (RC5_sendCode_spec pins fuel addr cmd s) in H1.
  rewrite (RC5_sendCode_spec pins fuel addr' cmd' s) in H2.
  destruct (first_release pins (polls s) fuel) as [n|]; [|discriminate].
  rewrite <- H1 in H2.
  apply (f_equal (fun o : option (unit * Machine) =>
                    match o with Some (_, m) => trace m | None => [] end)) in H2.
  cbv beta iota in H2. cbn [trace] in H2.
  apply app_inv_head in H2.
  assert (H3 : polled_after (RC5_raw_cycle addr' cmd' (RC5_toggle s))
                 (responses pins (polls s) n)
               = polled_after (RC5_raw_cycle addr cmd (RC5_toggle s))
                   (responses pins (polls s) n))
    by (injection H2 as H2; exact H2).
  apply polled_after_inj in H3; [|rewrite !RC5_raw_cycle_length; reflexivity].
  unfold RC5_raw_cycle in H3. apply app_inv_tail in H3. apply RC5_bits_inj in H3.
  rewrite (RC5_message_fields addr cmd _ Ha) in H3.
  rewrite (RC5_message_fields addr' cmd' _ Ha') in H3.
  assert (N : forall i, nth i (RC5_fields addr' cmd' (negb (RC5_toggle s =? 0))) false
                      = nth i (RC5_fields addr cmd (negb (RC5_toggle s =? 0))) false)
    by (intros i; rewrite H3; reflexivity).
  unfold RC5_fields in N.
  pose proof (N 1%nat) as C6. pose proof (N 3%nat) as A4. pose proof (N 4%nat) as A3.
  pose proof (N 5%nat) as A2. pose proof (N 6%nat) as A1. pose proof (N 7%nat) as A0.
  pose proof (N 8%nat) as C5. pose proof (N 9%nat) as C4. pose proof (N 10%nat) as C3.
  pose proof (N 11%nat) as C2. pose proof (N 12%nat) as C1. pose proof (N 13%nat) as C0.
  cbn [map app nth] in C6, A4, A3, A2, A1, A0, C5, C4, C3, C2, C1, C0. clear N.
  assert (C6' : Z.testbit cmd' 6 = Z.testbit cmd 6)
    by (destruct (Z.testbit cmd' 6), (Z.testbit cmd 6);
        try reflexivity; discriminate C6).
  split.
  - apply (testbit_inj_below 5); try lia. intros j Hj.
    assert (Hcases : j = 0 \/ j = 1 \/ j = 2 \/ j = 3 \/ j = 4) by lia.
    destruct Hcases as [->|[->|[->|[->| ->]]]]; symmetry; assumption.
  - apply (testbit_inj_below 7); try lia. intros j Hj.
    assert (Hcases : j = 0 \/ j = 1 \/ j = 2 \/ j = 3 \/ j = 4 \/ j = 5 \/ j = 6)
      by lia.
    destruct Hcases as [->|[->|[->|[->|[->|[->| ->]]]]]]; symmetry; assumption.
Qed.

Lemma RC5_telegram_injective_witness : 0x00 = 0x00 /\ 0x0B = 0x0B.
Proof.
  apply (RC5_telegram_injective (press PIN_KEY2 1) 2 0x00 0x0B 0x00 0x0B reset
           (match RC5_sendCode (press PIN_KEY2 1) 2 0x00 0x0B reset with
            | Some (_, r) => r
            | None => reset
            end));
    [lia | lia | lia | lia | vm_compute; reflexivity | vm_compute; reflexivity].
Defined.

(** ** Arguments out of range *)

(** X11.  [RC5_sendCode] with an address wider than 5 bits: address bit 5
    is merged into the toggle bit and address bit 6 into the inverted
    command bit 6 of every telegram (address bit 7 falls on the start bit,
    which is 1 anyway), and command bits above bit 6 are not sent.  This
    holds for all arguments, with no range assumed. *)
Theorem RC5_address_overflow : forall pins fuel addr cmd s n,
  held pins (polls s) n = true -> (n < fuel)%nat ->
  RC5_sendCode pins fuel addr cmd s =
    Some (tt, mkMachine (u8 (Z.lxor (RC5_toggle s) 1)) (polls s + S n)
      (trace s
       ++ carrier RC5_FREQ
       :: flat_map (fun k =>
             (flat_map RC5_bit
                ([true;
                  negb (Z.testbit cmd 6) || Z.testbit addr 6;
                  negb (RC5_toggle s =? 0) || Z.testbit addr 5]
                 ++ map (Z.testbit addr) [4; 3; 2; 1; 0]
                 ++ map (Z.testbit cmd) [5; 4; 3; 2; 1; 0])
              ++ [EvOff; EvDlyMs 89])
             ++ [EvKey k])
            (responses pins (polls s) n ++ [0]))).
Proof.
  intros pins fuel addr cmd s n Hh Hf.
  rewrite (RC5_sendCode_spec pins fuel addr cmd s).
  rewrite (held_first_release pins fuel (polls s) n Hh Hf).
  do 4 f_equal. unfold polled_after. f_equal.
  unfold RC5_raw_cycle.
  assert (E : bits_msb 14 (RC5_message addr cmd (RC5_toggle s))
              = [true;
                 negb (Z.testbit cmd 6) || Z.testbit addr 6;
                 negb (RC5_toggle s =? 0) || Z.testbit addr 5]
                ++ map (Z.testbit addr) [4; 3; 2; 1; 0]
                ++ map (Z.testbit cmd) [5; 4; 3; 2; 1; 0]).
  { unfold bits_msb. cbn [seq rev app map Z.of_nat Pos.of_succ_nat Pos.succ].
    rewrite !RC5_message_testbit by lia.
    cbn [Z.eqb Z.leb Z.ltb Z.compare Pos.eqb Pos.compare Pos.compare_cont Z.sub
         Z.add Z.opp Z.pos_sub Z.succ_double Z.pred_double Z.double Pos.pred_double
         orb andb].
    rewrite !orb_false_r. reflexivity. }
  rewrite E. reflexivity.
Qed.

Lemma RC5_address_overflow_witness :
  exists s', RC5_sendCode (press PIN_KEY2 1) 2 0x20 0x0B reset = Some (tt, s')
             /\ polls s' = 2%nat.
Proof.
  eexists. split.
  - apply (RC5_address_overflow (press PIN_KEY2 1) 2 0x20 0x0B reset 1);
      [reflexivity | lia].
  - reflexivity.
Defined.

Lemma bits_lsb_mod : forall n w v,
  Z.of_nat n <= w -> bits_lsb n (v mod 2 ^ w) = bits_lsb n v.
Proof.
  intros n w v Hw. unfold bits_lsb. apply map_ext_in. intros j Hj.
  apply in_seq in Hj. apply Z.mod_pow2_bits_low. lia.
Qed.

Lemma addr_bits_mod : forall from n w addr,
  Z.of_nat (from + n) <= w -> addr_bits from n (addr mod 2 ^ w) = addr_bits from n addr.
Proof.
  intros from n w addr Hw. unfold addr_bits. apply map_ext_in. intros j Hj.
  apply in_seq in Hj. apply Z.mod_pow2_bits_low. lia.
Qed.

(** X12.  [SON_sendCode] sends only the low 7 bits of the command and the
    low address bits of the variant (5, 8 or 13, none for any other
    variant value): arguments that differ above these bits give the same
    call, for every sequence of key reads and every bound. *)
Theorem SON_arguments_truncated : forall pins fuel addr cmd bits s,
  SON_sendCode pins fuel addr cmd bits s
  = SON_sendCode pins fuel (addr mod 2 ^ SON_addr_width bits) (cmd mod 128) bits s.
Proof.
  intros pins fuel addr cmd bits s.
  rewrite !SON_sendCode_spec.
  assert (E : SON_cycle (addr mod 2 ^ SON_addr_width bits) (cmd mod 128) bits
              = SON_cycle addr cmd bits).
  { unfold SON_cycle, SON_telegram. change 128 with (2 ^ 7).
    rewrite (bits_lsb_mod 7 7) by lia. do 4 f_equal.
    unfold SON_address, SON_addr_width.
    destruct (bits =? 12); [|destruct (bits =? 15); [|destruct (bits =? 20)]];
      rewrite ?addr_bits_mod by (cbn; lia); reflexivity. }
  rewrite E. reflexivity.
Qed.

Lemma SAM_cycle_durations : forall addr cmd on,
  0 <= addr < 256 -> 0 <= cmd < 256 ->
  durations on (SAM_cycle addr cmd)
  = (22716, 75419 + 2250 * ones (bits_lsb 8 addr)).
Proof.
  intros addr cmd on Ha Hc. unfold SAM_cycle, SAM_telegram.
  rewrite !durations_app, NEC_bytes_bits, NEC_bits_durations.
  assert (H1 : durations on (burst_space 4500 4500) = (4500, 4500))
    by (destruct on; reflexivity).
  assert (H2 : forall b, durations b NEC_mark = (552, 543))
    by (intros [|]; reflexivity).
  assert (H3 : carrier_after on
                 ((burst_space 4500 4500
                   ++ flat_map NEC_bit (flat_map (bits_lsb 8) (SAM_bytes addr cmd))
                   ++ NEC_mark)) = false).
  { rewrite <- NEC_bytes_bits. apply (settled_app (burst_space 4500 4500));
      [apply settled_burst_space|].
    apply calm_app; [apply calm_NEC_bytes | apply settled_calm, settled_burst_space]. }
  rewrite H1, H2, H3. unfold SAM_bytes. cbn [flat_map].
  rewrite app_nil_r, !length_app, !bits_lsb_length, !ones_app.
  rewrite (bits_lsb_inv8 cmd Hc), ones_negb, bits_lsb_length.
  unfold padd. cbn [fst snd durations]. f_equal; lia.
Qed.

(** X13.  The length of a SAMSUNG frame depends on the address only.  For
    every 8-bit address and command, when the keys are read as held [n]
    times and then as released, each of the [n + 1] cycles of
    [SAM_sendCode] requests 22716 us of carrier and 75419 + 2250 o
    microseconds of silence, [o] being the number of 1 bits of the address
    (it is sent twice; the command is sent with its inverse): from
    98.135 ms to 116.135 ms a cycle. *)
Theorem SAM_air_time : forall pins fuel addr cmd s n,
  0 <= addr < 256 -> 0 <= cmd < 256 ->
  held pins (polls s) n = true -> (n < fuel)%nat ->
  let o := ones (bits_lsb 8 addr) in
  exists s',
    SAM_sendCode pins fuel addr cmd s = Some (tt, s')
    /\ durations false (emitted s s')
       = (22716 * (Z.of_nat n + 1), (75419 + 2250 * o) * (Z.of_nat n + 1))
    /\ 0 <= o <= 8.
Proof.
  intros pins fuel addr cmd s n Ha Hc Hh Hf o. eexists. split.
  - rewrite (SAM_sendCode_spec pins fuel addr cmd s Ha Hc).
    rewrite (held_first_release pins fuel (polls s) n Hh Hf). reflexivity.
  - rewrite emitted_app.
    assert (Hd0 : durations false [carrier NEC_FREQ] = (0, 0)) by reflexivity.
    change (carrier NEC_FREQ :: ?x) with ([carrier NEC_FREQ] ++ x).
    rewrite durations_app, Hd0.
    rewrite (polled_after_durations _ (22716, 75419 + 2250 * o));
      [|intros on; apply SAM_cycle_durations; assumption
       |intros on; apply settled_SAM_cycle].
    rewrite responses_length. unfold padd. cbn [fst snd].
    split; [f_equal; lia|].
    pose proof (ones_bounds (bits_lsb 8 addr)) as Ho.
    rewrite bits_lsb_length in Ho. exact Ho.
Qed.

Lemma SAM_air_time_witness :
  exists s',
    SAM_sendCode (press PIN_KEY4 1) 2 0x07 0x02 reset = Some (tt, s')
    /\ durations false (emitted reset s') = (45432, 164338).
Proof.
  destruct (SAM_air_time (press PIN_KEY4 1) 2 0x07 0x02 reset 1
              ltac:(lia) ltac:(lia) eq_refl ltac:(lia)) as [s' [E [T _]]].
  exists s'. split; [exact E|]. rewrite T. reflexivity.
Defined.

(** ** The timer *)

(** X14.  For every carrier frequency from 23 Hz up to the CPU clock,
    [PWM_set] loads the timer with values that fit 16 bits: a period of
    [ATRLR + 1] clock ticks that is the largest whole number of ticks not
    longer than a period of the requested frequency (so the carrier is
    never slower than requested), and a compare value that exceeds a
    quarter of that period by at most one tick.  (Below 23 Hz the period
    computed does not fit 16 bits.) *)
Theorem PWM_set_registers : forall freq s,
  23 <= freq <= F_CPU ->
  exists atrlr ch2cvr,
    PWM_set freq s = Some (tt, log [EvPWM atrlr ch2cvr] s)
    /\ 0 <= atrlr < 65536
    /\ 0 < ch2cvr < 65536
    /\ (atrlr + 1) * freq <= F_CPU < (atrlr + 2) * freq
    /\ atrlr + 1 < 4 * ch2cvr <= atrlr + 5.
Proof.
  intros freq s Hf.
  exists (F_CPU / freq - 1), (F_CPU / freq / 4 + 1).
  split; [reflexivity|].
  pose proof (Z.div_mod F_CPU freq ltac:(lia)) as Hd.
  pose proof (Z.mod_pos_bound F_CPU freq ltac:(lia)) as Hm.
  pose proof (Z.div_mod (F_CPU / freq) 4 ltac:(lia)) as Hd4.
  pose proof (Z.mod_pos_bound (F_CPU / freq) 4 ltac:(lia)) as Hm4.
  assert (Hq : 1 <= F_CPU / freq)
    by (apply Z.div_le_lower_bound; lia).
  assert (Hu : F_CPU / freq <= 65217).
  { assert (H23 : F_CPU / freq < 65218)
      by (apply Z.div_lt_upper_bound; unfold F_CPU in *; lia).
    lia. }
  repeat split; nia.
Qed.

Lemma PWM_set_registers_witness :
  exists atrlr ch2cvr,
    PWM_set 38000 reset = Some (tt, log [EvPWM atrlr ch2cvr] reset)
    /\ 0 <= atrlr < 65536
    /\ 0 < ch2cvr < 65536
    /\ (atrlr + 1) * 38000 <= F_CPU < (atrlr + 2) * 38000
    /\ atrlr + 1 < 4 * ch2cvr <= atrlr + 5.
Proof.
  apply (PWM_set_registers 38000 reset). unfold F_CPU. lia.
Defined.
